(** * Healthcare dashboard: loader, summary statistics and chart callbacks

    A shallow embedding of [app.py].  The dashboard loads one CSV file at
    start-up ([load_data]), computes two scalars ([num_records],
    [avg_billing_amount]), builds its layout and registers five callbacks
    that filter the loaded frame and hand it to a plotting function.

    Conventions of the embedding.

    - A data frame is the list of its rows, in index order.  Boolean-mask
      indexing [df[mask]] keeps the rows whose mask entry is true, in order:
      this is [List.filter].
    - A float64 cell is [Num q] with [q] a rational (a finite float) or
      [NaN], the missing marker of pandas.  Cells are only compared and
      selected.  What float64 arithmetic computes from them (the mean, the
      mean of the two middle values in the median) is a [scalar], finite,
      infinite or NaN, and the arithmetic itself, with its rounding and
      overflow, is a parameter.  Only [quantile] interpolates over the
      rationals; nothing is claimed from it that rounding could change.
    - A datetime cell is a calendar date or [NaT]; a monthly period is the
      ordinal pandas stores for it (months since January 1970) or [NaT].
    - The plotting functions of plotly express are constructors of [figure]
      carrying the arguments the source passes: a figure is the declarative
      chart description, rendering is outside the program.
    - The text grammars of [pd.to_numeric] and [pd.to_datetime] and the ['.2f']
      formatting of a finite float belong to pandas and Python; they are
      parameters of the development.  Dates are read column by column, as
      pandas does.
    - Each callback is given twice: as a function from the table and the
      control values to the figure, and as the program it is, run statement
      by statement on a store of objects in which names can share a frame and
      a frame can be written in place.
    - Of [app.layout], the parts computed from the table are modelled (the
      two statistics texts, the dropdown options, the slider with its range,
      starting value and marks); the static component tree is not. *)

From Stdlib Require Import String Ascii DecimalString.
From Stdlib Require Import ZArith QArith Qround Bool Lia Lqa List Sorted Permutation.
Import ListNotations.

Local Open Scope string_scope.
Local Open Scope Z_scope.

(** ** Cells *)

Inductive float : Type :=
| Num (q : Q)
| NaN.

Record Timestamp : Type := mkTimestamp {
  year : Z;
  month : Z;
  day : Z
}.

(** Ordinal of a monthly period: number of months since 1970-01. *)
Definition Period : Type := Z.

Definition to_period_M (t : Timestamp) : Period :=
  (year t - 1970) * 12 + (month t - 1).

(** [Series.dt.to_period('M')]: NaT stays NaT. *)
Definition dt_to_period_M (d : option Timestamp) : option Period :=
  match d with
  | Some t => Some (to_period_M t)
  | None => None
  end.

Definition two_digits (n : Z) : string :=
  let s := NilZero.string_of_uint (N.to_uint (Z.to_N n)) in
  if n <? 10 then "0" ++ s else s.

Definition four_digits (n : Z) : string :=
  let s := NilZero.string_of_uint (N.to_uint (Z.to_N n)) in
  if n <? 10 then "000" ++ s
  else if n <? 100 then "00" ++ s
  else if n <? 1000 then "0" ++ s
  else s.

(** [str(Period(..., 'M'))], e.g. ["2021-03"]. *)
Definition period_str (p : Period) : string :=
  four_digits (1970 + p / 12) ++ "-" ++ two_digits (p mod 12 + 1).

(** ** Rows *)

(** A line of [assets/healthcare.csv] as [pd.read_csv] delivers it; the two
    columns that [load_data] coerces are still text. *)
Record CsvRow : Type := mkCsvRow {
  csv_Age : Z;
  csv_Gender : string;
  csv_Medical_Condition : string;
  csv_Insurance_Provider : string;
  csv_Billing_Amount : string;
  csv_Date_of_Admission : string
}.

(** A row of the loaded frame [data]. *)
Record Row : Type := mkRow {
  Age : Z;
  Gender : string;
  Medical_Condition : string;
  Insurance_Provider : string;
  Billing_Amount : float;
  Date_of_Admission : option Timestamp;
  YearMonth : option Period
}.

Definition DataFrame : Type := list Row.

(** ** Exceptions *)

Inductive exn : Type :=
| ValueError (msg : string).

Inductive result (A : Type) : Type :=
| Ok (a : A)
| Raise (e : exn).

Arguments Ok {A} a.
Arguments Raise {A} e.

Definition bind {A B : Type} (m : result A) (k : A -> result B) : result B :=
  match m with
  | Ok a => k a
  | Raise e => Raise e
  end.

Notation "x <- m ;; k" := (bind m (fun x => k))
  (at level 61, m at next level, right associativity).

Fixpoint mapM {A B : Type} (f : A -> result B) (l : list A) : result (list B) :=
  match l with
  | [] => Ok []
  | a :: l' =>
      b <- f a ;;
      bs <- mapM f l' ;;
      Ok (b :: bs)
  end.

(** ** Dataset loader *)

(** The [errors=] argument of [pd.to_numeric] and [pd.to_datetime]. *)
Inductive errors_policy : Type :=
| errors_raise
| errors_coerce.

Section Loader.

(** Text accepted as a number by pandas, with its value ([NaN] for an empty
    cell or a NaN literal); [None] when the text is not a number.  Each cell
    of the column is read on its own. *)
Variable parse_float : string -> option float.

(** [pd.to_datetime] reads a column as a whole: it infers one date format
    for the column, so whether a cell is a date depends on the other cells.
    [parse_datetime column cell] is the reading of [cell] in the format
    inferred from [column]: [Some None] for an empty cell, [None] when the
    cell is not a date in that format. *)
Variable parse_datetime : list string -> string -> option (option Timestamp).

(** Whether the cells of the column carry different UTC offsets. *)
Variable mixed_offsets : list string -> bool.

Definition to_numeric (arg : list string) (errors : errors_policy)
  : result (list float) :=
  mapM
    (fun cell =>
       match parse_float cell with
       | Some v => Ok v
       | None =>
           match errors with
           | errors_raise => Raise (ValueError "Unable to parse string")
           | errors_coerce => Ok NaN
           end
       end)
    arg.

(** A column with mixed UTC offsets is refused whatever [errors] says (the
    call does not pass [utc=True]); [errors] decides only about the cells
    that are not dates. *)
Definition to_datetime (arg : list string) (errors : errors_policy)
  : result (list (option Timestamp)) :=
  if mixed_offsets arg
  then Raise (ValueError "Mixed timezones detected. Pass utc=True in to_datetime")
  else
    mapM
      (fun cell =>
         match parse_datetime arg cell with
         | Some v => Ok v
         | None =>
             match errors with
             | errors_raise => Raise (ValueError "Unknown datetime string format")
             | errors_coerce => Ok None
             end
         end)
      arg.

(** The three column assignments of [load_data]: the coerced Billing Amount,
    the coerced Date of Admission, and YearMonth derived from the latter. *)
Fixpoint assign_columns (csv : list CsvRow) (billing : list float)
    (admitted : list (option Timestamp)) : DataFrame :=
  match csv, billing, admitted with
  | line :: csv', b :: billing', d :: admitted' =>
      {| Age := csv_Age line;
         Gender := csv_Gender line;
         Medical_Condition := csv_Medical_Condition line;
         Insurance_Provider := csv_Insurance_Provider line;
         Billing_Amount := b;
         Date_of_Admission := d;
         YearMonth := dt_to_period_M d |}
      :: assign_columns csv' billing' admitted'
  | _, _, _ => []
  end.

Definition load_data (csv : list CsvRow) : result DataFrame :=
  billing <- to_numeric (map csv_Billing_Amount csv) errors_coerce ;;
  admitted <- to_datetime (map csv_Date_of_Admission csv) errors_coerce ;;
  Ok (assign_columns csv billing admitted).

End Loader.

(** ** Summary statistics *)

Definition num_records (data : DataFrame) : nat := length data.

Definition isna (v : float) : bool :=
  match v with
  | Num _ => false
  | NaN => true
  end.

(** [fillna(0)] on one cell. *)
Definition fill0 (v : float) : Q :=
  match v with
  | Num q => q
  | NaN => 0%Q
  end.

(** A float64 produced by arithmetic: a finite value, an infinity (on
    overflow) or NaN. *)
Inductive scalar : Type :=
| finite (q : Q)
| infinity (negative : bool)
| nan.

Section Statistics.

(** float64 arithmetic rounds and overflows and is not computed here:
    [float_sum l] is the float64 sum of the values [l] as numpy adds them,
    [float_div x n] the float64 quotient of [x] by the count [n]. *)
Variable float_sum : list Q -> scalar.
Variable float_div : scalar -> nat -> scalar.

(** [Series.mean()] with the default [skipna=True]: the missing entries are
    masked (they enter the sum as 0 and are not counted); the result is NaN
    when nothing is left to count. *)
Definition mean (s : list float) : scalar :=
  let count := length (filter (fun v => negb (isna v)) s) in
  let the_sum := float_sum (map fill0 s) in
  if (0 <? count)%nat then float_div the_sum count else nan.

Definition avg_billing_amount (data : DataFrame) : scalar :=
  mean (map Billing_Amount data).

(** [format(x, '.2f')] of a finite float. *)
Variable format_2f : Q -> string.

Definition format_float_2f (v : scalar) : string :=
  match v with
  | finite q => format_2f q
  | infinity false => "inf"
  | infinity true => "-inf"
  | nan => "nan"
  end.

(** Text of the second statistics tile of the layout. *)
Definition avg_billing_text (data : DataFrame) : string :=
  "Average Biling Amount: " ++ format_float_2f (avg_billing_amount data).

End Statistics.

(** ** Control values *)

(** A value a callback receives from the browser (the JSON scalars a
    single-select dropdown, a slider or a radio group can send). *)
Inductive pyval : Type :=
| PyNone
| PyBool (b : bool)
| PyInt (n : Z)
| PyStr (s : string).

(** Truth value of [if v:]. *)
Definition truthy (v : pyval) : bool :=
  match v with
  | PyNone => false
  | PyBool b => b
  | PyInt n => negb (n =? 0)
  | PyStr s => negb (String.eqb s EmptyString)
  end.

(** One entry of [series == v] for a column of strings. *)
Definition str_eq (cell : string) (v : pyval) : bool :=
  match v with
  | PyStr s => String.eqb cell s
  | _ => false
  end.

(** One entry of [series <= x] for a float column: false on NaN. *)
Definition float_le (cell : float) (x : Q) : bool :=
  match cell with
  | Num q => Qle_bool q x
  | NaN => false
  end.

(** ** Figures *)

Inductive column : Type :=
| col_Age
| col_Gender
| col_Medical_Condition
| col_Insurance_Provider
| col_Billing_Amount
| col_YearMonth
| col_Count.

Inductive palette : Type :=
| colors (l : list string)
| qualitative_Set1.

(** The frame [trend_df] of [update_admission]: YearMonth (as text), Count. *)
Definition TrendFrame : Type := list (string * nat).

Inductive figure : Type :=
| empty_dict
| px_histogram (data_frame : DataFrame) (x : column) (nbins : Z)
    (color : option column) (title : string)
    (color_discrete_sequence : option palette)
| px_pie (data_frame : DataFrame) (names : column) (title : string)
| px_bar (data_frame : DataFrame) (x y color : column) (barmode : string)
    (title : string) (color_discrete_sequence : palette)
| px_line_trend (data_frame : TrendFrame) (x y : column) (title : string)
| px_bar_trend (data_frame : TrendFrame) (x y : column) (title : string).

(** ** Grouping *)

(** Adds one occurrence of [k] to a table of counts kept in increasing key
    order. *)
Fixpoint count_key (k : Period) (acc : list (Period * nat)) : list (Period * nat) :=
  match acc with
  | [] => [(k, 1%nat)]
  | (k', c) :: rest =>
      if k <? k' then (k, 1%nat) :: acc
      else if k =? k' then (k', S c) :: rest
      else (k', c) :: count_key k rest
  end.

(** [df.groupby('YearMonth').size().reset_index(name='Count')]: one line per
    key, keys sorted, rows whose key is NaT dropped. *)
Definition groupby_YearMonth_size (df : DataFrame) : list (Period * nat) :=
  fold_right
    (fun r acc =>
       match YearMonth r with
       | Some k => count_key k acc
       | None => acc
       end)
    [] df.

(** [trend_df['YearMonth'].astype(str)]. *)
Definition YearMonth_astype_str (t : list (Period * nat)) : TrendFrame :=
  map (fun kc => (period_str (fst kc), snd kc)) t.

(** [df.empty]. *)
Definition empty (df : DataFrame) : bool :=
  match df with
  | [] => true
  | _ :: _ => false
  end.

(** ** Callbacks *)

Definition update_distribution (data : DataFrame) (selected_gender : pyval) : figure :=
  let filtered_df :=
    if truthy selected_gender
    then filter (fun r => str_eq (Gender r) selected_gender) data
    else data in
  if empty filtered_df then empty_dict
  else
    px_histogram filtered_df col_Age 10 (Some col_Gender)
      "Age Distribution by Gender" (Some (colors ["#636efa"; "#ef553b"])).

Definition update_medical_condition (data : DataFrame) (selected_gender : pyval) : figure :=
  let filtered_df :=
    if truthy selected_gender
    then filter (fun r => str_eq (Gender r) selected_gender) data
    else data in
  px_pie filtered_df col_Medical_Condition "Medical Condition Distribution".

Definition update_insurance (data : DataFrame) (selected_gender : pyval) : figure :=
  let filtered_df :=
    if truthy selected_gender
    then filter (fun r => str_eq (Gender r) selected_gender) data
    else data in
  px_bar filtered_df col_Insurance_Provider col_Billing_Amount
    col_Medical_Condition "group" "Insurance Provider Price Comparison"
    qualitative_Set1.

(** The two filtering steps of [update_billing]. *)
Definition billing_gender_filter (selected_gender : pyval) (df : DataFrame) : DataFrame :=
  if truthy selected_gender
  then filter (fun r => str_eq (Gender r) selected_gender) df
  else df.

Definition billing_slider_filter (slider_value : Q) (df : DataFrame) : DataFrame :=
  filter (fun r => float_le (Billing_Amount r) slider_value) df.

Definition update_billing (data : DataFrame) (selected_gender : pyval)
    (slider_value : Q) : figure :=
  let filtered_df := billing_gender_filter selected_gender data in
  let filtered_df := billing_slider_filter slider_value filtered_df in
  px_histogram filtered_df col_Billing_Amount 10 None
    "Billing Amount Distribution" None.

(** The frame [trend_df] before its key column is turned into text. *)
Definition admission_counts (data : DataFrame) (selected_condition : pyval)
  : list (Period * nat) :=
  let filtered_df :=
    if truthy selected_condition
    then filter (fun r => str_eq (Medical_Condition r) selected_condition) data
    else data in
  groupby_YearMonth_size filtered_df.

Definition update_admission (data : DataFrame) (chart_type selected_condition : pyval)
  : figure :=
  let trend_df := admission_counts data selected_condition in
  let trend_df := YearMonth_astype_str trend_df in
  if str_eq "line" chart_type
  then px_line_trend trend_df col_YearMonth col_Count "Admission Trends Over Time"
  else px_bar_trend trend_df col_YearMonth col_Count "Admission Trends Over Time".

(** ** The running application *)

(** A request of the browser: which callback fires, with the current values
    of its inputs. *)
Inductive request : Type :=
| age_distribution (gender_filter : pyval)
| condition_distribution (gender_filter : pyval)
| insurance_comparison (gender_filter : pyval)
| billing_distribution (gender_filter : pyval) (billing_slider : Q)
| admission_trends (chart_type condition_filter : pyval).

(** The figure a request is answered with, as a function of the table. *)
Definition figure_of (df : DataFrame) (rq : request) : figure :=
  match rq with
  | age_distribution v => update_distribution df v
  | condition_distribution v => update_medical_condition df v
  | insurance_comparison v => update_insurance df v
  | billing_distribution v x => update_billing df v x
  | admission_trends t v => update_admission df t v
  end.

(** *** Objects and names

    In the program a frame is an object that several names can refer to:
    [filtered_df = data] makes a second name for the loaded table, and
    [trend_df['YearMonth'] = ...] changes the object [trend_df] names, in
    place.  The store holds the objects; a name holds a reference. *)

Inductive object : Type :=
| frame (rows : DataFrame)
| counts_frame (t : list (Period * nat))
| text_counts_frame (t : TrendFrame).

Definition ref : Type := nat.

(** The store: the object at position [p] is the one [p] refers to; a new
    object goes to the end. *)
Definition Heap : Type := list object.

(** A computation on the store; [None] when it raises. *)
Definition Py (A : Type) : Type := Heap -> option (A * Heap).

Definition ret {A : Type} (a : A) : Py A := fun h => Some (a, h).

Definition raise {A : Type} : Py A := fun _ => None.

Definition pbind {A B : Type} (m : Py A) (k : A -> Py B) : Py B :=
  fun h =>
    match m h with
    | Some (a, h') => k a h'
    | None => None
    end.

Notation "x <<- m ;; k" := (pbind m (fun x => k))
  (at level 61, m at next level, right associativity).

Definition new (o : object) : Py ref :=
  fun h => Some (length h, (h ++ [o])%list).

Definition get (p : ref) : Py object :=
  fun h =>
    match nth_error h p with
    | Some o => Some (o, h)
    | None => None
    end.

Fixpoint replace_nth (p : nat) (o : object) (h : Heap) : Heap :=
  match h, p with
  | [], _ => []
  | _ :: h', O => o :: h'
  | x :: h', S p' => x :: replace_nth p' o h'
  end.

(** Overwrites the object [p] refers to: every name for it sees the change. *)
Definition put (p : ref) (o : object) : Py unit :=
  fun h => if (p <? length h)%nat then Some (tt, replace_nth p o h) else None.

(** [df[mask]]: a new frame with the rows the mask keeps. *)
Definition getitem_mask (df : ref) (mask : Row -> bool) : Py ref :=
  o <<- get df ;;
  match o with
  | frame rows => new (frame (filter mask rows))
  | _ => raise
  end.

(** [df.empty]. *)
Definition is_empty (df : ref) : Py bool :=
  o <<- get df ;;
  match o with
  | frame rows => ret (empty rows)
  | _ => raise
  end.

(** [df.groupby('YearMonth').size().reset_index(name='Count')]: a new frame. *)
Definition groupby_size_reset_index (df : ref) : Py ref :=
  o <<- get df ;;
  match o with
  | frame rows => new (counts_frame (groupby_YearMonth_size rows))
  | _ => raise
  end.

(** [df['YearMonth'] = df['YearMonth'].astype(str)]: the frame [df] refers to
    is changed in place. *)
Definition setitem_YearMonth_astype_str (df : ref) : Py unit :=
  o <<- get df ;;
  match o with
  | counts_frame t => put df (text_counts_frame (YearMonth_astype_str t))
  | _ => raise
  end.

(** The plotting functions read the frame they are given. *)
Definition histogram (df : ref) (x : column) (nbins : Z) (color : option column)
    (title : string) (color_discrete_sequence : option palette) : Py figure :=
  o <<- get df ;;
  match o with
  | frame rows => ret (px_histogram rows x nbins color title color_discrete_sequence)
  | _ => raise
  end.

Definition pie (df : ref) (names : column) (title : string) : Py figure :=
  o <<- get df ;;
  match o with
  | frame rows => ret (px_pie rows names title)
  | _ => raise
  end.

Definition bar (df : ref) (x y color : column) (barmode title : string)
    (color_discrete_sequence : palette) : Py figure :=
  o <<- get df ;;
  match o with
  | frame rows => ret (px_bar rows x y color barmode title color_discrete_sequence)
  | _ => raise
  end.

Definition line_trend (df : ref) (x y : column) (title : string) : Py figure :=
  o <<- get df ;;
  match o with
  | text_counts_frame t => ret (px_line_trend t x y title)
  | _ => raise
  end.

Definition bar_trend (df : ref) (x y : column) (title : string) : Py figure :=
  o <<- get df ;;
  match o with
  | text_counts_frame t => ret (px_bar_trend t x y title)
  | _ => raise
  end.

(** *** The callbacks as they run

    The five callbacks, statement by statement, on the store.  [data] is the
    module-level name of the loaded table. *)

Section Callbacks.

Variable data : ref.

(** [data[data[key] == selected] if selected else data]: in the second case
    the result is the table itself, not a copy. *)
Definition select_rows (key : Row -> string) (selected : pyval) : Py ref :=
  if truthy selected
  then getitem_mask data (fun r => str_eq (key r) selected)
  else ret data.

Definition update_distribution_callback (selected_gender : pyval) : Py figure :=
  filtered_df <<- select_rows Gender selected_gender ;;
  is_empty_df <<- is_empty filtered_df ;;
  if is_empty_df : bool then ret empty_dict
  else
    histogram filtered_df col_Age 10 (Some col_Gender)
      "Age Distribution by Gender" (Some (colors ["#636efa"; "#ef553b"])).

Definition update_medical_condition_callback (selected_gender : pyval) : Py figure :=
  filtered_df <<- select_rows Gender selected_gender ;;
  pie filtered_df col_Medical_Condition "Medical Condition Distribution".

Definition update_insurance_callback (selected_gender : pyval) : Py figure :=
  filtered_df <<- select_rows Gender selected_gender ;;
  bar filtered_df col_Insurance_Provider col_Billing_Amount
    col_Medical_Condition "group" "Insurance Provider Price Comparison"
    qualitative_Set1.

Definition update_billing_callback (selected_gender : pyval) (slider_value : Q)
  : Py figure :=
  filtered_df <<- select_rows Gender selected_gender ;;
  filtered_df <<- getitem_mask filtered_df
                    (fun r => float_le (Billing_Amount r) slider_value) ;;
  histogram filtered_df col_Billing_Amount 10 None
    "Billing Amount Distribution" None.

Definition update_admission_callback (chart_type selected_condition : pyval)
  : Py figure :=
  filtered_df <<- select_rows Medical_Condition selected_condition ;;
  trend_df <<- groupby_size_reset_index filtered_df ;;
  _ <<- setitem_YearMonth_astype_str trend_df ;;
  if str_eq "line" chart_type
  then line_trend trend_df col_YearMonth col_Count "Admission Trends Over Time"
  else bar_trend trend_df col_YearMonth col_Count "Admission Trends Over Time".

(** Dash calls the callback subscribed to the output that is asked for. *)
Definition handle (rq : request) : Py figure :=
  match rq with
  | age_distribution v => update_distribution_callback v
  | condition_distribution v => update_medical_condition_callback v
  | insurance_comparison v => update_insurance_callback v
  | billing_distribution v x => update_billing_callback v x
  | admission_trends t v => update_admission_callback t v
  end.

End Callbacks.

(** ** The specification's reading of the filters and aggregations *)

(** "Gender equals the selection, or any gender when the selection is null". *)
Definition selected_or_all (cell : string) (selection : pyval) : bool :=
  match selection with
  | PyNone => true
  | _ => str_eq cell selection
  end.

(** "Rows where Gender == selected, or all rows if null". *)
Definition rows_where_Gender (data : DataFrame) (selection : pyval) : DataFrame :=
  filter (fun r => selected_or_all (Gender r) selection) data.

(** "Medical Condition match (or all)". *)
Definition rows_where_Medical_Condition (data : DataFrame) (selection : pyval)
  : DataFrame :=
  filter (fun r => selected_or_all (Medical_Condition r) selection) data.

(** "Gender match (or all) AND Billing Amount <= slider value". *)
Definition rows_where_Gender_and_Billing (data : DataFrame) (selection : pyval)
    (slider_value : Q) : DataFrame :=
  filter
    (fun r => selected_or_all (Gender r) selection
              && float_le (Billing_Amount r) slider_value)
    data.

(** The values of a float column that are present. *)
Fixpoint present (s : list float) : list Q :=
  match s with
  | [] => []
  | Num q :: s' => q :: present s'
  | NaN :: s' => present s'
  end.

(** Number of rows of [df] that fall in the bucket of period [k]. *)
Definition bucket_size (k : Period) (df : DataFrame) : nat :=
  length
    (filter
       (fun r => match YearMonth r with
                 | Some k' => k' =? k
                 | None => false
                 end)
       df).

(** Total recorded for key [k] in a table of counts. *)
Fixpoint count_of (k : Period) (acc : list (Period * nat)) : nat :=
  match acc with
  | [] => 0
  | (k', c) :: rest => if k' =? k then c + count_of k rest else count_of k rest
  end.

(** A selection that is the unselected state or passes [if v:]. *)
Definition null_or_truthy (v : pyval) : Prop :=
  v = PyNone \/ truthy v = true.

(** ** Layout *)

(** [Series.unique()] on a column of strings: the distinct values, in order
    of first appearance. *)
Fixpoint unique (s : list string) : list string :=
  match s with
  | [] => []
  | x :: s' => x :: filter (fun y => negb (String.eqb x y)) (unique s')
  end.

(** One entry of a dropdown's [options] list. *)
Record dropdown_option : Type := mkOption {
  label : string;
  option_value : string
}.

(** [[{"label": gender, "value": gender} for gender in data['Gender'].unique()]]. *)
Definition gender_filter_options (data : DataFrame) : list dropdown_option :=
  map (fun gender => mkOption gender gender) (unique (map Gender data)).

Definition condition_filter_options (data : DataFrame) : list dropdown_option :=
  map (fun condition => mkOption condition condition)
    (unique (map Medical_Condition data)).

Definition Qmin2 (a b : Q) : Q := if Qle_bool a b then a else b.

Definition Qmax2 (a b : Q) : Q := if Qle_bool a b then b else a.

(** [Series.min()] and [Series.max()], missing values skipped; NaN when no
    value is present. *)
Definition series_min (s : list float) : float :=
  match present s with
  | [] => NaN
  | q :: qs => Num (fold_left Qmin2 qs q)
  end.

Definition series_max (s : list float) : float :=
  match present s with
  | [] => NaN
  | q :: qs => Num (fold_left Qmax2 qs q)
  end.

(** The present values in increasing order. *)
Fixpoint insert_sorted (x : Q) (l : list Q) : list Q :=
  match l with
  | [] => [x]
  | y :: l' => if Qle_bool x y then x :: l else y :: insert_sorted x l'
  end.

Definition sort_values (l : list Q) : list Q := fold_right insert_sorted [] l.

(** [Series.median()], missing values skipped: the middle value, or the
    float64 mean of the two middle values; NaN when no value is present. *)
Definition median (float_sum : list Q -> scalar) (float_div : scalar -> nat -> scalar)
    (s : list float) : scalar :=
  let v := sort_values (present s) in
  let n := length v in
  if (n =? 0)%nat then nan
  else if Nat.even n
       then float_div (float_sum [nth (n / 2 - 1) v 0%Q; nth (n / 2) v 0%Q]) 2%nat
       else finite (nth (n / 2) v 0%Q).

(** [Series.quantile(q)] with the default linear interpolation, for
    [0 <= q <= 1]; NaN when no value is present. *)
Definition quantile (s : list float) (q : Q) : float :=
  let v := sort_values (present s) in
  let n := length v in
  if (n =? 0)%nat then NaN
  else
    let pos := (q * inject_Z (Z.of_nat (n - 1)))%Q in
    let below := Z.to_nat (Qfloor pos) in
    let above := Nat.min (S below) (n - 1) in
    let gamma := (pos - inject_Z (Qfloor pos))%Q in
    Num (nth below v 0 + (nth above v 0 - nth below v 0) * gamma)%Q.

(** [int(x)] of a float: truncation towards zero; NaN has no integer. *)
Definition py_int (x : float) : result Z :=
  match x with
  | Num q => Ok (Z.quot (Qnum q) (Zpos (Qden q)))
  | NaN => Raise (ValueError "cannot convert float NaN to integer")
  end.

(** Commas between groups of three digits, on the reversed digits. *)
Fixpoint group3 (rev_digits : list ascii) : list ascii :=
  match rev_digits with
  | a :: b :: c :: ((_ :: _) as rest) => a :: b :: c :: ","%char :: group3 rest
  | _ => rev_digits
  end.

(** [format(n, ',')] of an integer. *)
Definition format_commas (n : Z) : string :=
  let digits := NilZero.string_of_uint (N.to_uint (Z.abs_N n)) in
  let grouped := string_of_list_ascii (rev (group3 (rev (list_ascii_of_string digits)))) in
  if n <? 0 then "-" ++ grouped else grouped.

(** [d[k] = v] on a dictionary kept in insertion order. *)
Fixpoint dict_set (k : Z) (v : string) (d : list (Z * string)) : list (Z * string) :=
  match d with
  | [] => [(k, v)]
  | (k', v') :: d' =>
      if k =? k' then (k, v) :: d' else (k', v') :: dict_set k v d'
  end.

(** [{int(value): f"${int(value):,}" for value in values}], continued from
    the dictionary built so far. *)
Fixpoint marks_from (values : list float) (d : list (Z * string))
  : result (list (Z * string)) :=
  match values with
  | [] => Ok d
  | x :: values' =>
      k <- py_int x ;;
      marks_from values' (dict_set k ("$" ++ format_commas k) d)
  end.

Definition quantile_points : list Q := [0; 1 # 4; 1 # 2; 3 # 4; 1]%Q.

Definition slider_marks (data : DataFrame) : result (list (Z * string)) :=
  marks_from (map (quantile (map Billing_Amount data)) quantile_points) [].

(** The [dcc.Slider] of the billing section. *)
Record Slider : Type := mkSlider {
  slider_min : float;
  slider_max : float;
  slider_value : scalar;
  marks : list (Z * string);
  step : Z
}.

Definition billing_slider (float_sum : list Q -> scalar)
    (float_div : scalar -> nat -> scalar) (data : DataFrame) : result Slider :=
  let billing := map Billing_Amount data in
  m <- slider_marks data ;;
  Ok {| slider_min := series_min billing;
        slider_max := series_max billing;
        slider_value := median float_sum float_div billing;
        marks := m;
        step := 100 |}.

(** The parts of [app.layout] that are computed from the table. *)
Record Layout : Type := mkLayout {
  total_records_text : string;
  average_billing_text : string;
  gender_filter : list dropdown_option;
  billing_slider_control : Slider;
  chart_type_options : list dropdown_option;
  chart_type_value : string;
  condition_filter : list dropdown_option
}.

Definition layout (float_sum : list Q -> scalar)
    (float_div : scalar -> nat -> scalar) (format_2f : Q -> string)
    (data : DataFrame) : result Layout :=
  let records_text :=
    "Total Records: " ++ NilZero.string_of_uint (Nat.to_uint (num_records data)) in
  let average_text := avg_billing_text float_sum float_div format_2f data in
  let genders := gender_filter_options data in
  slider <- billing_slider float_sum float_div data ;;
  Ok {| total_records_text := records_text;
        average_billing_text := average_text;
        gender_filter := genders;
        billing_slider_control := slider;
        chart_type_options := [mkOption "Line Chart" "line"; mkOption "Bar Chart" "bar"];
        chart_type_value := "line";
        condition_filter := condition_filter_options data |}.

(** Sum of the Count column of a table of counts. *)
Definition total_count (t : list (Period * nat)) : nat :=
  fold_right (fun kc n => (snd kc + n)%nat) 0%nat t.

(** Reading a label ["YYYY-MM"] back as a period. *)
Definition digit_of_ascii (c : ascii) : option Z :=
  let n := Z.of_nat (nat_of_ascii c) - 48 in
  if (0 <=? n) && (n <=? 9) then Some n else None.

Definition period_of_str (s : string) : option Period :=
  match list_ascii_of_string s with
  | [y1; y2; y3; y4; dash; m1; m2] =>
      match digit_of_ascii y1, digit_of_ascii y2, digit_of_ascii y3,
            digit_of_ascii y4, digit_of_ascii m1, digit_of_ascii m2 with
      | Some a, Some b, Some c, Some d, Some e, Some f =>
          Some ((a * 1000 + b * 100 + c * 10 + d - 1970) * 12 + (e * 10 + f - 1))
      | _, _, _, _, _, _ => None
      end
  | _ => None
  end.

Definition decode4 (s : string) : option Z :=
  match list_ascii_of_string s with
  | [a; b; c; d] =>
      match digit_of_ascii a, digit_of_ascii b, digit_of_ascii c, digit_of_ascii d with
      | Some a, Some b, Some c, Some d => Some (a * 1000 + b * 100 + c * 10 + d)
      | _, _, _, _ => None
      end
  | _ => None
  end.

Definition decode2 (s : string) : option Z :=
  match list_ascii_of_string s with
  | [e; f] =>
      match digit_of_ascii e, digit_of_ascii f with
      | Some e, Some f => Some (e * 10 + f)
      | _, _ => None
      end
  | _ => None
  end.

(** [f] holds at [z], [z + 1], ..., [fuel] values in all. *)
Fixpoint all_from (fuel : nat) (z : Z) (f : Z -> bool) : bool :=
  match fuel with
  | O => true
  | S fuel' => f z && all_from fuel' (z + 1) f
  end.

(** A month whose year is written with four digits. *)
Definition four_digit_year (p : Period) : Prop := 0 <= 1970 + p / 12 <= 9999.

(** What a cell is loaded as under [errors='coerce']. *)
Definition coerced_float (parse_float : string -> option float) (cell : string)
  : float :=
  match parse_float cell with
  | Some v => v
  | None => NaN
  end.

Definition coerced_datetime
    (parse_datetime : list string -> string -> option (option Timestamp))
    (column : list string) (cell : string) : option Timestamp :=
  match parse_datetime column cell with
  | Some v => v
  | None => None
  end.

(** The store and the layout once the module has run: [data = load_data()]
    makes the table the first object of the store, [avg_billing_amount] is
    computed for the statistics tile, then [app.layout] is built. *)
Definition data_ref : ref := 0%nat.

Definition build_app (float_sum : list Q -> scalar)
    (float_div : scalar -> nat -> scalar) (format_2f : Q -> string)
    (parse_float : string -> option float)
    (parse_datetime : list string -> string -> option (option Timestamp))
    (mixed_offsets : list string -> bool)
    (csv : list CsvRow) : result (Heap * Layout) :=
  df <- load_data parse_float parse_datetime mixed_offsets csv ;;
  l <- layout float_sum float_div format_2f df ;;
  Ok ([frame df], l).

(** ** Sample data *)

Definition male_row : Row :=
  {| Age := 40; Gender := "Male"; Medical_Condition := "Asthma";
     Insurance_Provider := "Aetna"; Billing_Amount := Num (100 # 1);
     Date_of_Admission := Some (mkTimestamp 2021 3 14);
     YearMonth := Some 614 |}.

Definition female_row : Row :=
  {| Age := 35; Gender := "Female"; Medical_Condition := "Diabetes";
     Insurance_Provider := "Cigna"; Billing_Amount := Num (200 # 1);
     Date_of_Admission := Some (mkTimestamp 2020 11 2);
     YearMonth := Some 610 |}.

(** A row whose two coerced cells were unparseable. *)
Definition damaged_row : Row :=
  {| Age := 51; Gender := "Male"; Medical_Condition := "Asthma";
     Insurance_Provider := "Aetna"; Billing_Amount := NaN;
     Date_of_Admission := None;
     YearMonth := None |}.

Definition sample_data : DataFrame := [male_row; female_row].

(** A toy grammar for the two parsers: it knows two amounts and two dates,
    and the empty cell. *)
Definition sample_parse_float (s : string) : option float :=
  if String.eqb s "100" then Some (Num (100 # 1))
  else if String.eqb s "200" then Some (Num (200 # 1))
  else if String.eqb s EmptyString then Some NaN
  else None.

Definition sample_parse_datetime (column : list string) (s : string)
  : option (option Timestamp) :=
  if String.eqb s "2021-03-14" then Some (Some (mkTimestamp 2021 3 14))
  else if String.eqb s "2020-11-02" then Some (Some (mkTimestamp 2020 11 2))
  else if String.eqb s "2021-03-14T10:00:00+01:00" then Some (Some (mkTimestamp 2021 3 14))
  else if String.eqb s "2021-03-15T10:00:00-05:00" then Some (Some (mkTimestamp 2021 3 15))
  else if String.eqb s EmptyString then Some None
  else None.

(** The UTC offset written at the end of a cell, if the toy grammar knows
    the cell as one with an offset. *)
Definition sample_offset (s : string) : option string :=
  if String.eqb s "2021-03-14T10:00:00+01:00" then Some "+01:00"
  else if String.eqb s "2021-03-15T10:00:00-05:00" then Some "-05:00"
  else None.

Fixpoint sample_offsets (column : list string) : list string :=
  match column with
  | [] => []
  | s :: column' =>
      match sample_offset s with
      | Some o => o :: sample_offsets column'
      | None => sample_offsets column'
      end
  end.

Definition sample_mixed_offsets (column : list string) : bool :=
  match sample_offsets column with
  | [] => false
  | o :: os => negb (forallb (String.eqb o) os)
  end.

(** A file whose dates carry two different UTC offsets. *)
Definition mixed_timezone_csv : list CsvRow :=
  [ mkCsvRow 40 "Male" "Asthma" "Aetna" "100" "2021-03-14T10:00:00+01:00";
    mkCsvRow 35 "Female" "Diabetes" "Cigna" "200" "2021-03-15T10:00:00-05:00" ].

(** Exact arithmetic, which is what float64 gives on the small whole numbers
    of the samples. *)
Definition sample_float_sum (l : list Q) : scalar :=
  finite (fold_right Qplus 0%Q l).

Definition sample_float_div (x : scalar) (n : nat) : scalar :=
  match x with
  | finite q => finite (q / inject_Z (Z.of_nat n))
  | _ => x
  end.

Definition sample_csv : list CsvRow :=
  [ mkCsvRow 40 "Male" "Asthma" "Aetna" "100" "2021-03-14";
    mkCsvRow 35 "Female" "Diabetes" "Cigna" "200" "2020-11-02";
    mkCsvRow 51 "Male" "Asthma" "Aetna" "n/a" "soon" ].

(** * Properties *)

(** ** Filters *)

Section FilterFacts.

Context {A : Type}.
Implicit Types (f g : A -> bool) (l : list A).

Lemma filter_swap f g l : filter f (filter g l) = filter g (filter f l).
Proof.
  induction l as [|a l IH]; simpl; [reflexivity|].
  destruct (g a) eqn:Hg, (f a) eqn:Hf; simpl; rewrite ?Hg, ?Hf, IH; reflexivity.
Qed.

Lemma filter_conj f g l : filter f (filter g l) = filter (fun a => g a && f a) l.
Proof.
  induction l as [|a l IH]; simpl; [reflexivity|].
  destruct (g a); simpl; [destruct (f a)|]; rewrite IH; reflexivity.
Qed.

Lemma filter_all f l : (forall a, In a l -> f a = true) -> filter f l = l.
Proof.
  induction l as [|a l IH]; simpl; intros H; [reflexivity|].
  rewrite (H a (or_introl eq_refl)), IH; auto.
Qed.

Lemma filter_none f l : (forall a, In a l -> f a = false) -> filter f l = [].
Proof.
  induction l as [|a l IH]; simpl; intros H; [reflexivity|].
  rewrite (H a (or_introl eq_refl)), IH; auto.
Qed.

End FilterFacts.

Lemma selected_or_all_truthy cell v :
  truthy v = true -> selected_or_all cell v = str_eq cell v.
Proof. destruct v; simpl; intros H; try reflexivity; discriminate. Qed.

Lemma selected_or_all_spec cell v :
  selected_or_all cell v = true <-> v = PyNone \/ v = PyStr cell.
Proof.
  destruct v as [|b|n|s]; simpl; split; intros H; auto;
    try discriminate; try (destruct H; discriminate).
  - right. apply String.eqb_eq in H. now subst.
  - destruct H as [H|H]; [discriminate|]. injection H as ->. apply String.eqb_refl.
Qed.

(** The conditional filter all five callbacks start with, on a selection
    that is null or truthy, keeps the rows the specification names. *)
Lemma conditional_filter (key : Row -> string) data v :
  null_or_truthy v ->
  (if truthy v then filter (fun r => str_eq (key r) v) data else data)
  = filter (fun r => selected_or_all (key r) v) data.
Proof.
  intros [-> | Ht].
  - simpl. symmetry. now apply filter_all.
  - rewrite Ht. apply filter_ext. intros r. symmetry.
    now apply selected_or_all_truthy.
Qed.

(** A falsy selection takes the [else] branch: no filter. *)
Lemma conditional_filter_falsy (key : Row -> string) data v :
  truthy v = false ->
  (if truthy v then filter (fun r => str_eq (key r) v) data else data) = data.
Proof. intros ->. reflexivity. Qed.

Lemma float_le_spec cell x :
  float_le cell x = true <-> exists q, cell = Num q /\ (q <= x)%Q.
Proof.
  destruct cell as [q|]; simpl; split.
  - intros H. exists q. split; [reflexivity|]. now apply Qle_bool_iff.
  - intros (q' & E & H). injection E as ->. now apply Qle_bool_iff.
  - discriminate.
  - intros (q' & E & _). discriminate.
Qed.

Lemma In_rows_where_Gender data v r :
  In r (rows_where_Gender data v) <->
  In r data /\ (v = PyNone \/ v = PyStr (Gender r)).
Proof.
  unfold rows_where_Gender. rewrite filter_In, selected_or_all_spec. tauto.
Qed.

Lemma In_rows_where_Medical_Condition data v r :
  In r (rows_where_Medical_Condition data v) <->
  In r data /\ (v = PyNone \/ v = PyStr (Medical_Condition r)).
Proof.
  unfold rows_where_Medical_Condition.
  rewrite filter_In, selected_or_all_spec. tauto.
Qed.

Lemma In_rows_where_Gender_and_Billing data v x r :
  In r (rows_where_Gender_and_Billing data v x) <->
  In r data /\ (v = PyNone \/ v = PyStr (Gender r)) /\
  exists q, Billing_Amount r = Num q /\ (q <= x)%Q.
Proof.
  unfold rows_where_Gender_and_Billing.
  rewrite filter_In, andb_true_iff, selected_or_all_spec, float_le_spec. tauto.
Qed.

(** ** Missing values *)

Lemma present_nil_iff (s : list float) :
  present s = [] <-> Forall (fun v => v = NaN) s.
Proof.
  induction s as [|[q|] s IH]; simpl; split; intros H.
  - constructor.
  - reflexivity.
  - discriminate.
  - inversion H; discriminate.
  - constructor; [reflexivity|now apply IH].
  - apply IH. now inversion H.
Qed.

(** ** Grouping by month *)

Lemma count_key_count_of k k0 acc :
  count_of k0 (count_key k acc) =
  if k =? k0 then S (count_of k0 acc) else count_of k0 acc.
Proof.
  induction acc as [|[k' c] rest IH]; simpl.
  - destruct (k =? k0); reflexivity.
  - destruct (k <? k') eqn:Hlt; [|destruct (k =? k') eqn:Heq]; simpl.
    + destruct (k =? k0); reflexivity.
    + apply Z.eqb_eq in Heq. subst k'. destruct (k =? k0); reflexivity.
    + rewrite IH. destruct (k' =? k0) eqn:E1, (k =? k0) eqn:E2; try reflexivity.
      apply Z.eqb_eq in E1, E2. apply Z.eqb_neq in Heq. lia.
Qed.

Lemma count_key_HdRel k0 k acc :
  k0 < k -> HdRel Z.lt k0 (map fst acc) ->
  HdRel Z.lt k0 (map fst (count_key k acc)).
Proof.
  intros Hk H. destruct acc as [|[k' c] rest]; simpl.
  - now constructor.
  - inversion H; subst.
    destruct (k <? k'); [|destruct (k =? k')]; simpl; now constructor.
Qed.

Lemma count_key_Sorted k acc :
  Sorted Z.lt (map fst acc) -> Sorted Z.lt (map fst (count_key k acc)).
Proof.
  induction acc as [|[k' c] rest IH]; simpl; intros H.
  - repeat constructor.
  - inversion H as [|? ? Hs Hh]; subst.
    destruct (k <? k') eqn:Hlt; [|destruct (k =? k') eqn:Heq]; simpl.
    + constructor; [assumption|]. constructor. now apply Z.ltb_lt.
    + now constructor.
    + constructor; [now apply IH|].
      apply count_key_HdRel; [|assumption].
      apply Z.ltb_ge in Hlt. apply Z.eqb_neq in Heq. lia.
Qed.

Lemma count_key_positive k acc :
  Forall (fun kc => (0 < snd kc)%nat) acc ->
  Forall (fun kc => (0 < snd kc)%nat) (count_key k acc).
Proof.
  induction acc as [|[k' c] rest IH]; simpl; intros H.
  - repeat constructor.
  - inversion H; subst.
    destruct (k <? k'); [|destruct (k =? k')]; repeat constructor;
      simpl in *; auto; lia.
Qed.

Lemma groupby_Sorted df : Sorted Z.lt (map fst (groupby_YearMonth_size df)).
Proof.
  induction df as [|r df IH]; simpl; [constructor|].
  destruct (YearMonth r); [now apply count_key_Sorted|assumption].
Qed.

Lemma groupby_positive df :
  Forall (fun kc => (0 < snd kc)%nat) (groupby_YearMonth_size df).
Proof.
  induction df as [|r df IH]; simpl; [constructor|].
  destruct (YearMonth r); [now apply count_key_positive|assumption].
Qed.

Lemma groupby_count_of k df :
  count_of k (groupby_YearMonth_size df) = bucket_size k df.
Proof.
  unfold bucket_size.
  induction df as [|r df IH]; simpl; [reflexivity|].
  destruct (YearMonth r) as [k'|]; [|assumption].
  rewrite count_key_count_of, IH. destruct (k' =? k); reflexivity.
Qed.

Lemma count_of_above k acc :
  Forall (fun k' => k < k') (map fst acc) -> count_of k acc = 0%nat.
Proof.
  induction acc as [|[k' c] rest IH]; simpl; intros H; [reflexivity|].
  inversion H; subst.
  replace (k' =? k) with false by (symmetry; apply Z.eqb_neq; lia). auto.
Qed.

Lemma count_of_In k c acc :
  Sorted Z.lt (map fst acc) -> In (k, c) acc -> count_of k acc = c.
Proof.
  induction acc as [|[k' c'] rest IH]; simpl; intros Hs Hin; [contradiction|].
  apply Sorted_StronglySorted in Hs; [|exact Z.lt_strorder.(StrictOrder_Transitive)].
  inversion Hs as [|? ? Hrest Hall]; subst.
  destruct Hin as [E|Hin].
  - injection E as -> ->. rewrite Z.eqb_refl, count_of_above; [lia|assumption].
  - assert (k' < k) as Hlt.
    { rewrite Forall_forall in Hall. apply Hall.
      change k with (fst (k, c)). now apply in_map. }
    replace (k' =? k) with false by (symmetry; apply Z.eqb_neq; lia).
    apply IH; [|assumption]. now apply StronglySorted_Sorted.
Qed.

Lemma count_of_positive_In k acc :
  (0 < count_of k acc)%nat -> exists c, In (k, c) acc.
Proof.
  induction acc as [|[k' c'] rest IH]; simpl; intros H; [lia|].
  destruct (k' =? k) eqn:E.
  - apply Z.eqb_eq in E. subst. eauto.
  - destruct (IH H) as [c Hc]. eauto.
Qed.

(** The table of counts has exactly the non-empty buckets, each with the
    number of rows that fall in it. *)
Lemma groupby_buckets df k c :
  In (k, c) (groupby_YearMonth_size df) <->
  c = bucket_size k df /\ (0 < c)%nat.
Proof.
  split.
  - intros Hin. split.
    + rewrite <- groupby_count_of. symmetry.
      apply count_of_In; [apply groupby_Sorted|assumption].
    + pose proof (groupby_positive df) as Hp. rewrite Forall_forall in Hp.
      now apply (Hp (k, c)).
  - intros [-> Hpos]. rewrite <- groupby_count_of in Hpos |- *.
    destruct (count_of_positive_In _ _ Hpos) as [c Hc].
    now rewrite (count_of_In _ _ _ (groupby_Sorted df) Hc).
Qed.

(** Rows without a month contribute to no bucket. *)
Lemma groupby_drops_NaT df :
  groupby_YearMonth_size df =
  groupby_YearMonth_size
    (filter (fun r => match YearMonth r with Some _ => true | None => false end) df).
Proof.
  induction df as [|r df IH]; simpl; [reflexivity|].
  destruct (YearMonth r) eqn:E; simpl; [rewrite E|]; now rewrite <- IH.
Qed.

(** ** Age distribution *)

(** C1 (as amended).  For every gender selection that is null or truthy,
    [update_distribution] works on exactly the rows whose Gender equals the
    selection (all rows when it is null); it returns the empty dictionary
    when there is no such row and otherwise a histogram of Age over those
    rows with [nbins = 10], coloured by Gender. *)
Theorem update_distribution_filters (data : DataFrame) (selected_gender : pyval) :
  null_or_truthy selected_gender ->
  (forall r, In r (rows_where_Gender data selected_gender) <->
             In r data /\
             (selected_gender = PyNone \/ selected_gender = PyStr (Gender r))) /\
  update_distribution data selected_gender =
  match rows_where_Gender data selected_gender with
  | [] => empty_dict
  | r :: rows =>
      px_histogram (r :: rows) col_Age 10 (Some col_Gender)
        "Age Distribution by Gender" (Some (colors ["#636efa"; "#ef553b"]))
  end.
Proof.
  intros Hsel. split.
  - intros r. apply In_rows_where_Gender.
  - unfold update_distribution.
    rewrite (conditional_filter Gender data selected_gender Hsel).
    fold (rows_where_Gender data selected_gender).
    destruct (rows_where_Gender data selected_gender); reflexivity.
Qed.

(** The scenario of the specification: of a Male and a Female row, selecting
    Male leaves the histogram exactly the Male row. *)
Lemma update_distribution_filters_witness :
  null_or_truthy (PyStr "Male") /\
  update_distribution sample_data (PyStr "Male") =
  px_histogram [male_row] col_Age 10 (Some col_Gender)
    "Age Distribution by Gender" (Some (colors ["#636efa"; "#ef553b"])).
Proof.
  assert (null_or_truthy (PyStr "Male")) as H by (right; reflexivity).
  split; [exact H|].
  exact (proj2 (update_distribution_filters sample_data (PyStr "Male") H)).
Defined.

(** C1 as stated fails on the empty string: no row has Gender equal to it, so
    the stated filter is empty and the stated result is the empty dictionary,
    but the callback draws the histogram of the whole table. *)
Lemma update_distribution_empty_string :
  rows_where_Gender sample_data (PyStr EmptyString) = [] /\
  update_distribution sample_data (PyStr EmptyString) =
  px_histogram sample_data col_Age 10 (Some col_Gender)
    "Age Distribution by Gender" (Some (colors ["#636efa"; "#ef553b"])) /\
  update_distribution sample_data (PyStr EmptyString) <> empty_dict.
Proof.
  split; [reflexivity|]. split; [reflexivity|]. discriminate.
Qed.

(** ** Billing distribution *)

Lemma update_billing_rows data selected_gender slider_value :
  update_billing data selected_gender slider_value =
  px_histogram
    (billing_slider_filter slider_value
       (billing_gender_filter selected_gender data))
    col_Billing_Amount 10 None "Billing Amount Distribution" None.
Proof. reflexivity. Qed.

(** C2 (as amended).  For every gender selection that is null or truthy and
    every slider value, the histogram of [update_billing] is built from
    exactly the rows whose Gender equals the selection (any Gender when it is
    null) and whose Billing Amount is at most the slider value; it is a
    histogram of Billing Amount with [nbins = 10]. *)
Theorem update_billing_filters (data : DataFrame) (selected_gender : pyval)
    (slider_value : Q) :
  null_or_truthy selected_gender ->
  (forall r, In r (rows_where_Gender_and_Billing data selected_gender slider_value) <->
             In r data /\
             (selected_gender = PyNone \/ selected_gender = PyStr (Gender r)) /\
             exists q, Billing_Amount r = Num q /\ (q <= slider_value)%Q) /\
  update_billing data selected_gender slider_value =
  px_histogram (rows_where_Gender_and_Billing data selected_gender slider_value)
    col_Billing_Amount 10 None "Billing Amount Distribution" None.
Proof.
  intros Hsel. split.
  - intros r. apply In_rows_where_Gender_and_Billing.
  - rewrite update_billing_rows. f_equal.
    unfold billing_slider_filter, billing_gender_filter, DataFrame.
    rewrite (conditional_filter Gender data selected_gender Hsel).
    apply filter_conj.
Qed.

Lemma update_billing_filters_witness :
  null_or_truthy PyNone /\
  update_billing sample_data PyNone (150 # 1) =
  px_histogram [male_row] col_Billing_Amount 10 None
    "Billing Amount Distribution" None.
Proof.
  assert (null_or_truthy PyNone) as H by (left; reflexivity).
  split; [exact H|].
  exact (proj2 (update_billing_filters sample_data PyNone (150 # 1) H)).
Defined.

(** C2 as stated fails on the empty string: the stated row set is empty, the
    callback's histogram holds the Male row. *)
Lemma update_billing_empty_string :
  rows_where_Gender_and_Billing sample_data (PyStr EmptyString) (150 # 1) = [] /\
  update_billing sample_data (PyStr EmptyString) (150 # 1) =
  px_histogram [male_row] col_Billing_Amount 10 None
    "Billing Amount Distribution" None.
Proof. split; reflexivity. Qed.

(** C3.  With the slider strictly below every Billing Amount of the table the
    filtered frame of [update_billing] is empty, and the callback returns an
    ordinary histogram built from no rows; it is not the empty dictionary
    that [update_distribution] returns for an empty frame. *)
Theorem update_billing_below_minimum (data : DataFrame) (selected_gender : pyval)
    (slider_value : Q) :
  (forall r q, In r data -> Billing_Amount r = Num q -> (slider_value < q)%Q) ->
  billing_slider_filter slider_value (billing_gender_filter selected_gender data) = [] /\
  update_billing data selected_gender slider_value =
  px_histogram [] col_Billing_Amount 10 None "Billing Amount Distribution" None /\
  update_billing data selected_gender slider_value <> empty_dict /\
  update_distribution [] selected_gender = empty_dict.
Proof.
  intros Hmin.
  assert (billing_slider_filter slider_value
            (billing_gender_filter selected_gender data) = []) as E.
  { unfold billing_slider_filter, billing_gender_filter.
    apply filter_none. intros r Hr.
    assert (In r data) as Hd.
    { destruct (truthy selected_gender); [|assumption].
      now apply filter_In in Hr. }
    destruct (float_le (Billing_Amount r) slider_value) eqn:Hle; [|reflexivity].
    apply float_le_spec in Hle. destruct Hle as (q & Hq & Hle).
    specialize (Hmin r q Hd Hq). exfalso. now apply (Qlt_not_le _ _ Hmin). }
  split; [exact E|]. rewrite update_billing_rows, E.
  split; [reflexivity|]. split; [discriminate|].
  unfold update_distribution. destruct (truthy selected_gender); reflexivity.
Qed.

Lemma update_billing_below_minimum_witness :
  (forall r q, In r sample_data -> Billing_Amount r = Num q -> (50 # 1 < q)%Q) /\
  update_billing sample_data PyNone (50 # 1) =
  px_histogram [] col_Billing_Amount 10 None "Billing Amount Distribution" None /\
  update_billing sample_data PyNone (50 # 1) <> empty_dict.
Proof.
  assert (forall r q, In r sample_data -> Billing_Amount r = Num q ->
                      (50 # 1 < q)%Q) as H.
  { intros r q [<-|[<-|[]]] E; injection E as <-; reflexivity. }
  split; [exact H|].
  destruct (update_billing_below_minimum sample_data PyNone (50 # 1) H)
    as (_ & E & N & _).
  split; [exact E|exact N].
Defined.

(** C10.  A row whose Billing Amount is missing fails the comparison with
    every slider value, so it is never among the rows of the histogram of
    [update_billing]. *)
Theorem update_billing_excludes_missing (data : DataFrame) (selected_gender : pyval)
    (slider_value : Q) (r : Row) :
  Billing_Amount r = NaN ->
  float_le (Billing_Amount r) slider_value = false /\
  exists rows,
    update_billing data selected_gender slider_value =
    px_histogram rows col_Billing_Amount 10 None
      "Billing Amount Distribution" None /\
    ~ In r rows.
Proof.
  intros Hna. split; [now rewrite Hna|].
  eexists. split; [apply update_billing_rows|].
  unfold billing_slider_filter. rewrite filter_In, Hna. simpl.
  intros [_ H]. discriminate.
Qed.

Lemma update_billing_excludes_missing_witness :
  Billing_Amount damaged_row = NaN /\
  exists rows,
    update_billing [male_row; damaged_row] PyNone (1000000 # 1) =
    px_histogram rows col_Billing_Amount 10 None
      "Billing Amount Distribution" None /\
    ~ In damaged_row rows.
Proof.
  split; [reflexivity|].
  exact (proj2 (update_billing_excludes_missing [male_row; damaged_row] PyNone
                  (1000000 # 1) damaged_row eq_refl)).
Defined.

(** C5.  The two filters of [update_billing] commute: by gender and then by
    Billing Amount, or by Billing Amount and then by gender, the same rows
    remain, in the same order. *)
Theorem billing_filters_commute (data : DataFrame) (selected_gender : pyval)
    (slider_value : Q) :
  billing_slider_filter slider_value (billing_gender_filter selected_gender data)
  = billing_gender_filter selected_gender (billing_slider_filter slider_value data).
Proof.
  unfold billing_slider_filter, billing_gender_filter.
  destruct (truthy selected_gender); [apply filter_swap|reflexivity].
Qed.

(** ** Admission trends *)

Lemma bucket_size_positive k r df :
  In r df -> YearMonth r = Some k -> (0 < bucket_size k df)%nat.
Proof.
  intros Hin Hk. unfold bucket_size.
  assert (In r (filter (fun r => match YearMonth r with
                                 | Some k' => k' =? k
                                 | None => false
                                 end) df)) as H.
  { apply filter_In. split; [assumption|]. rewrite Hk. apply Z.eqb_refl. }
  destruct (filter _ df); [contradiction|simpl; lia].
Qed.

(** C7 (as amended).  For every condition selection that is null or truthy,
    [update_admission] keeps the rows whose Medical Condition equals the
    selection (all rows when it is null), makes one bucket for each YearMonth
    value that occurs among them, gives each bucket the number of those rows
    that fall in it, and lists the buckets in chronological order; the chart
    plots these counts against the months, as a line or as bars. *)
Theorem update_admission_buckets (data : DataFrame)
    (chart_type selected_condition : pyval) :
  null_or_truthy selected_condition ->
  let rows := rows_where_Medical_Condition data selected_condition in
  let trend := admission_counts data selected_condition in
  (forall r, In r rows <->
             In r data /\
             (selected_condition = PyNone
              \/ selected_condition = PyStr (Medical_Condition r))) /\
  (selected_condition = PyNone -> rows = data) /\
  StronglySorted Z.lt (map fst trend) /\
  (forall k c, In (k, c) trend <-> c = bucket_size k rows /\ (0 < c)%nat) /\
  (forall r k, In r rows -> YearMonth r = Some k -> exists c, In (k, c) trend) /\
  update_admission data chart_type selected_condition =
  (if str_eq "line" chart_type then px_line_trend else px_bar_trend)
    (YearMonth_astype_str trend) col_YearMonth col_Count
    "Admission Trends Over Time".
Proof.
  intros Hsel rows trend.
  assert (trend = groupby_YearMonth_size rows) as Htrend.
  { unfold trend, admission_counts.
    now rewrite (conditional_filter Medical_Condition data selected_condition Hsel). }
  split; [intros r; apply In_rows_where_Medical_Condition|].
  split; [intros ->; now apply filter_all|].
  split.
  { rewrite Htrend. apply Sorted_StronglySorted; [|apply groupby_Sorted].
    exact Z.lt_strorder.(StrictOrder_Transitive). }
  split; [intros k c; rewrite Htrend; apply groupby_buckets|].
  split.
  { intros r k Hin Hk. exists (bucket_size k rows).
    rewrite Htrend. apply groupby_buckets. split; [reflexivity|].
    now apply (bucket_size_positive k r). }
  unfold update_admission. fold trend. destruct (str_eq "line" chart_type); reflexivity.
Qed.

(** The scenario of the specification: no condition selected, four rows in
    two months and one without a date. *)
Lemma update_admission_buckets_witness :
  null_or_truthy PyNone /\
  update_admission [male_row; female_row; damaged_row; male_row]
    (PyStr "line") PyNone =
  px_line_trend [("2020-11", 1%nat); ("2021-03", 2%nat)] col_YearMonth col_Count
    "Admission Trends Over Time".
Proof.
  assert (null_or_truthy PyNone) as H by (left; reflexivity).
  split; [exact H|].
  exact (proj2 (proj2 (proj2 (proj2 (proj2
    (update_admission_buckets [male_row; female_row; damaged_row; male_row]
       (PyStr "line") PyNone H)))))).
Defined.

(** C7 as stated fails on the empty string: no row has that Medical
    Condition, so the stated filter leaves no bucket, but the callback counts
    the whole table. *)
Lemma update_admission_empty_string :
  rows_where_Medical_Condition sample_data (PyStr EmptyString) = [] /\
  groupby_YearMonth_size (rows_where_Medical_Condition sample_data (PyStr EmptyString)) = [] /\
  update_admission sample_data (PyStr "line") (PyStr EmptyString) =
  px_line_trend [("2020-11", 1%nat); ("2021-03", 1%nat)] col_YearMonth col_Count
    "Admission Trends Over Time".
Proof. repeat split. Qed.

(** ** Falsy selections *)



(** * Further properties of the loader, the layout and the callbacks *)

(** ** Months *)

(** X2.  The ordinal of a monthly period orders dates as the calendar does: for
    months between 1 and 12, an earlier (year, month) has a smaller ordinal
    and equal ordinals mean the same month of the same year. *)
Theorem to_period_M_chronological (t1 t2 : Timestamp) :
  1 <= month t1 <= 12 ->
  1 <= month t2 <= 12 ->
  (to_period_M t1 < to_period_M t2 <->
   year t1 < year t2 \/ (year t1 = year t2 /\ month t1 < month t2)) /\
  (to_period_M t1 = to_period_M t2 <->
   year t1 = year t2 /\ month t1 = month t2).
Proof. unfold to_period_M. intros H1 H2. split; split; lia. Qed.

Lemma to_period_M_chronological_witness :
  (1 <= month (mkTimestamp 2020 12 31) <= 12 /\
   1 <= month (mkTimestamp 2021 1 1) <= 12) /\
  to_period_M (mkTimestamp 2020 12 31) < to_period_M (mkTimestamp 2021 1 1).
Proof.
  assert (1 <= month (mkTimestamp 2020 12 31) <= 12) as H1 by (simpl; lia).
  assert (1 <= month (mkTimestamp 2021 1 1) <= 12) as H2 by (simpl; lia).
  split; [split; assumption|].
  apply (proj1 (to_period_M_chronological _ _ H1 H2)).
  left. simpl. lia.
Defined.

(** ** Empty frames *)

Lemma empty_true_iff (df : DataFrame) : empty df = true <-> df = [].
Proof. destruct df; simpl; split; intros H; try reflexivity; discriminate. Qed.

Lemma filter_nil_iff {A : Type} (f : A -> bool) (l : list A) :
  filter f l = [] <-> forall a, In a l -> f a = false.
Proof.
  split; [|apply filter_none].
  intros E a Ha. destruct (f a) eqn:Hf; [|reflexivity].
  assert (In a (filter f l)) as H by (apply filter_In; auto).
  rewrite E in H. contradiction.
Qed.

Lemma str_eq_true_iff cell v : str_eq cell v = true <-> v = PyStr cell.
Proof.
  destruct v as [|b|n|s]; simpl; split; intros H; try discriminate.
  - apply String.eqb_eq in H. now subst.
  - injection H as ->. apply String.eqb_refl.
Qed.

Lemma update_distribution_empty_cases (data : DataFrame) (selected_gender : pyval) :
  update_distribution data selected_gender = empty_dict <->
  data = [] \/
  (truthy selected_gender = true /\
   forall r, In r data -> selected_gender <> PyStr (Gender r)).
Proof.
  unfold update_distribution.
  destruct (truthy selected_gender) eqn:Ht.
  - destruct (filter (fun r => str_eq (Gender r) selected_gender) data) as [|r0 rows] eqn:Ef;
      simpl.
    + split; [intros _|reflexivity]. right. split; [reflexivity|].
      intros r Hr E. pose proof (proj1 (filter_nil_iff _ _) Ef r Hr) as Hf.
      simpl in Hf. rewrite (proj2 (str_eq_true_iff _ _) E) in Hf. discriminate.
    + split; [discriminate|]. intros [-> | [_ H]]; [discriminate|].
      exfalso. assert (In r0 (filter (fun r => str_eq (Gender r) selected_gender) data))
        as Hin by (rewrite Ef; now left).
      apply filter_In in Hin. destruct Hin as [Hd Hs].
      apply str_eq_true_iff in Hs. exact (H r0 Hd Hs).
  - destruct data as [|r0 data]; simpl.
    + split; [now left|reflexivity].
    + split; [discriminate|]. intros [E | [E _]]; discriminate.
Qed.

(** X3.  [update_distribution] returns the empty dictionary exactly when the
    table has no rows, or the selection is truthy and no row has it as
    Gender; in every other case it returns a histogram of Age with
    [nbins = 10], coloured by Gender, over a frame that has at least one
    row. *)
Theorem update_distribution_empty_iff (data : DataFrame) (selected_gender : pyval) :
  (update_distribution data selected_gender = empty_dict <->
   data = [] \/
   (truthy selected_gender = true /\
    forall r, In r data -> selected_gender <> PyStr (Gender r))) /\
  (update_distribution data selected_gender = empty_dict \/
   exists r rows,
     update_distribution data selected_gender =
     px_histogram (r :: rows) col_Age 10 (Some col_Gender)
       "Age Distribution by Gender" (Some (colors ["#636efa"; "#ef553b"]))).
Proof.
  split; [apply update_distribution_empty_cases|].
  unfold update_distribution.
  destruct (if truthy selected_gender
            then filter (fun r => str_eq (Gender r) selected_gender) data
            else data) as [|r rows]; simpl.
  - now left.
  - right. exists r, rows. reflexivity.
Qed.

(** X4.  A truthy selection that matches no row empties every gender-filtered
    frame, but only [update_distribution] answers with the empty dictionary:
    the pie chart, the bar chart and the billing histogram are built from an
    empty frame. *)
Theorem unmatched_selection_charts (data : DataFrame) (selected_gender : pyval)
    (slider_value : Q) :
  truthy selected_gender = true ->
  (forall r, In r data -> selected_gender <> PyStr (Gender r)) ->
  update_distribution data selected_gender = empty_dict /\
  update_medical_condition data selected_gender =
  px_pie [] col_Medical_Condition "Medical Condition Distribution" /\
  update_insurance data selected_gender =
  px_bar [] col_Insurance_Provider col_Billing_Amount col_Medical_Condition
    "group" "Insurance Provider Price Comparison" qualitative_Set1 /\
  update_billing data selected_gender slider_value =
  px_histogram [] col_Billing_Amount 10 None "Billing Amount Distribution" None.
Proof.
  intros Ht Hno.
  assert (filter (fun r => str_eq (Gender r) selected_gender) data = []) as E.
  { apply filter_none. intros r Hr.
    destruct (str_eq (Gender r) selected_gender) eqn:Hs; [|reflexivity].
    apply str_eq_true_iff in Hs. exfalso. exact (Hno r Hr Hs). }
  unfold update_distribution, update_medical_condition, update_insurance,
    update_billing, billing_gender_filter, billing_slider_filter.
  rewrite Ht, E. repeat split.
Qed.

Lemma unmatched_selection_charts_witness :
  update_distribution sample_data (PyStr "Other") = empty_dict /\
  update_medical_condition sample_data (PyStr "Other") =
  px_pie [] col_Medical_Condition "Medical Condition Distribution".
Proof.
  assert (forall r, In r sample_data -> PyStr "Other" <> PyStr (Gender r)) as H.
  { intros r [<-|[<-|[]]]; discriminate. }
  destruct (unmatched_selection_charts sample_data (PyStr "Other") (150 # 1)
              eq_refl H) as (H1 & H2 & _).
  split; [exact H1|exact H2].
Defined.

(** ** Dropdown options *)

Lemma In_unique (s : list string) (x : string) : In x (unique s) <-> In x s.
Proof.
  induction s as [|a s IH]; simpl; [tauto|].
  rewrite filter_In, IH, negb_true_iff.
  destruct (String.eqb_spec a x) as [->|Hne]; split; intros H; auto.
  - destruct H as [H|[H _]]; auto.
  - destruct H as [H|H]; [contradiction|auto].
Qed.

Lemma NoDup_unique (s : list string) : NoDup (unique s).
Proof.
  induction s as [|a s IH]; simpl; constructor.
  - rewrite filter_In, String.eqb_refl. intros [_ H]. discriminate.
  - now apply NoDup_filter.
Qed.

Lemma options_of_column (col : list string) (o : dropdown_option) :
  In o (map (fun g => mkOption g g) (unique col)) <->
  label o = option_value o /\ In (option_value o) col.
Proof.
  rewrite in_map_iff. split.
  - intros (g & <- & Hg). simpl. split; [reflexivity|]. now apply In_unique.
  - intros [El Hin]. exists (option_value o). split; [|now apply In_unique].
    destruct o as [l v]. simpl in *. now subst.
Qed.

Lemma options_of_column_values (col : list string) :
  map option_value (map (fun g => mkOption g g) (unique col)) = unique col.
Proof. rewrite map_map. simpl. apply map_id. Qed.

Lemma options_of_key (key : Row -> string) (data : DataFrame) (o : dropdown_option) :
  In o (map (fun g => mkOption g g) (unique (map key data))) <->
  label o = option_value o /\ exists r, In r data /\ key r = option_value o.
Proof.
  rewrite options_of_column, in_map_iff. split.
  - intros [El (r & E & Hr)]. eauto.
  - intros [El (r & Hr & E)]. eauto.
Qed.

(** X5.  The two dropdowns offer exactly the values that occur in their column,
    each once, with the value as its own label. *)
Theorem dropdown_options_offered (data : DataFrame) :
  (forall o, In o (gender_filter_options data) <->
             label o = option_value o /\
             exists r, In r data /\ Gender r = option_value o) /\
  (forall o, In o (condition_filter_options data) <->
             label o = option_value o /\
             exists r, In r data /\ Medical_Condition r = option_value o) /\
  NoDup (map option_value (gender_filter_options data)) /\
  NoDup (map option_value (condition_filter_options data)).
Proof.
  unfold gender_filter_options, condition_filter_options.
  split; [intros o; apply options_of_key|].
  split; [intros o; apply options_of_key|].
  split; rewrite options_of_column_values; apply NoDup_unique.
Qed.

Lemma gender_frame_of_offered (data : DataFrame) (g : string) :
  In g (map Gender data) -> billing_gender_filter (PyStr g) data <> [].
Proof.
  intros Hin. apply in_map_iff in Hin. destruct Hin as (r & E & Hr).
  unfold billing_gender_filter. destruct (truthy (PyStr g)).
  - intros Hnil.
    assert (In r (filter (fun r => str_eq (Gender r) (PyStr g)) data)) as H.
    { apply filter_In. split; [assumption|]. apply str_eq_true_iff. now rewrite E. }
    rewrite Hnil in H. contradiction.
  - intros ->. contradiction.
Qed.

(** X6.  Choosing a value the gender dropdown offers never leaves a callback
    without rows: [update_distribution] does not return the empty dictionary,
    and the pie and bar charts are built from a non-empty frame. *)
Theorem offered_gender_has_rows (data : DataFrame) (o : dropdown_option) :
  In o (gender_filter_options data) ->
  update_distribution data (PyStr (option_value o)) <> empty_dict /\
  exists r rows,
    update_medical_condition data (PyStr (option_value o)) =
    px_pie (r :: rows) col_Medical_Condition "Medical Condition Distribution" /\
    update_insurance data (PyStr (option_value o)) =
    px_bar (r :: rows) col_Insurance_Provider col_Billing_Amount
      col_Medical_Condition "group" "Insurance Provider Price Comparison"
      qualitative_Set1.
Proof.
  intros Ho. apply options_of_column in Ho. destruct Ho as [_ Hin].
  pose proof (gender_frame_of_offered data _ Hin) as Hne.
  unfold update_distribution, update_medical_condition, update_insurance.
  unfold billing_gender_filter, DataFrame in Hne.
  destruct (if truthy (PyStr (option_value o))
            then filter (fun r => str_eq (Gender r) (PyStr (option_value o))) data
            else data) as [|r rows]; [contradiction|].
  split; [discriminate|]. exists r, rows. split; reflexivity.
Qed.

Lemma offered_gender_has_rows_witness :
  In (mkOption "Female" "Female") (gender_filter_options sample_data) /\
  update_distribution sample_data (PyStr "Female") <> empty_dict.
Proof.
  assert (In (mkOption "Female" "Female") (gender_filter_options sample_data)) as H.
  { right. left. reflexivity. }
  split; [exact H|].
  exact (proj1 (offered_gender_has_rows sample_data _ H)).
Defined.

(** ** The billing slider *)

Lemma float_le_mono (cell : float) (x y : Q) :
  (x <= y)%Q -> float_le cell x = true -> float_le cell y = true.
Proof.
  intros Hxy H. apply float_le_spec in H. destruct H as (q & -> & Hq).
  apply float_le_spec. exists q. split; [reflexivity|].
  now apply Qle_trans with x.
Qed.

Lemma filter_length_le {A : Type} (f : A -> bool) (l : list A) :
  (length (filter f l) <= length l)%nat.
Proof.
  induction l as [|a l IH]; simpl; [lia|]. destruct (f a); simpl; lia.
Qed.

(** X8.  Lowering the slider only removes rows: the frame at a lower value is the
    frame at a higher value filtered again, so it is contained in it and is
    no longer. *)
Theorem slider_filter_monotone (data : DataFrame) (selected_gender : pyval)
    (x y : Q) :
  (x <= y)%Q ->
  let rows_x := billing_slider_filter x (billing_gender_filter selected_gender data) in
  let rows_y := billing_slider_filter y (billing_gender_filter selected_gender data) in
  rows_x = billing_slider_filter x rows_y /\
  incl rows_x rows_y /\
  (length rows_x <= length rows_y)%nat.
Proof.
  intros Hxy rows_x rows_y.
  assert (rows_x = billing_slider_filter x rows_y) as E.
  { unfold rows_x, rows_y, billing_slider_filter. rewrite filter_conj.
    apply filter_ext. intros r.
    destruct (float_le (Billing_Amount r) x) eqn:Hx.
    - now rewrite (float_le_mono _ _ _ Hxy Hx).
    - now rewrite andb_false_r. }
  split; [exact E|]. split.
  - rewrite E. intros r Hr. unfold billing_slider_filter in Hr.
    now apply filter_In in Hr.
  - rewrite E. apply filter_length_le.
Qed.

Lemma slider_filter_monotone_witness :
  (150 # 1 <= 250 # 1)%Q /\
  incl (billing_slider_filter (150 # 1) (billing_gender_filter PyNone sample_data))
       (billing_slider_filter (250 # 1) (billing_gender_filter PyNone sample_data)).
Proof.
  assert (150 # 1 <= 250 # 1)%Q as H by (apply Qle_bool_iff; reflexivity).
  split; [exact H|].
  exact (proj1 (proj2 (slider_filter_monotone sample_data PyNone _ _ H))).
Defined.

Lemma Qle_bool_false (x y : Q) : Qle_bool x y = false -> (y <= x)%Q.
Proof.
  intros H. apply Qlt_le_weak, Qnot_le_lt. intros Hle.
  apply Qle_bool_iff in Hle. congruence.
Qed.

Lemma fold_left_Qmin2 (qs : list Q) (q : Q) :
  In (fold_left Qmin2 qs q) (q :: qs) /\
  forall y, In y (q :: qs) -> (fold_left Qmin2 qs q <= y)%Q.
Proof.
  revert q. induction qs as [|a qs IH]; intros q; simpl.
  - split; [now left|]. intros y [<-|[]]. apply Qle_refl.
  - destruct (IH (Qmin2 q a)) as [Hin Hle]. unfold Qmin2 in *.
    destruct (Qle_bool q a) eqn:Hqa; split.
    + simpl in Hin. tauto.
    + intros y [<-|[<-|Hy]].
      * apply Hle. now left.
      * apply Qle_trans with q; [apply Hle; now left|now apply Qle_bool_iff].
      * apply Hle. now right.
    + simpl in Hin. tauto.
    + intros y [<-|[<-|Hy]].
      * apply Qle_trans with a; [apply Hle; now left|now apply Qle_bool_false].
      * apply Hle. now left.
      * apply Hle. now right.
Qed.

Lemma fold_left_Qmax2 (qs : list Q) (q : Q) :
  In (fold_left Qmax2 qs q) (q :: qs) /\
  forall y, In y (q :: qs) -> (y <= fold_left Qmax2 qs q)%Q.
Proof.
  revert q. induction qs as [|a qs IH]; intros q; simpl.
  - split; [now left|]. intros y [<-|[]]. apply Qle_refl.
  - destruct (IH (Qmax2 q a)) as [Hin Hle]. unfold Qmax2 in *.
    destruct (Qle_bool q a) eqn:Hqa; split.
    + simpl in Hin. tauto.
    + intros y [<-|[<-|Hy]].
      * apply Qle_trans with a; [now apply Qle_bool_iff|apply Hle; now left].
      * apply Hle. now left.
      * apply Hle. now right.
    + simpl in Hin. tauto.
    + intros y [<-|[<-|Hy]].
      * apply Hle. now left.
      * apply Qle_trans with q; [now apply Qle_bool_false|apply Hle; now left].
      * apply Hle. now right.
Qed.

Lemma series_min_spec (s : list float) (lo : Q) :
  series_min s = Num lo ->
  In lo (present s) /\ forall y, In y (present s) -> (lo <= y)%Q.
Proof.
  unfold series_min. destruct (present s) as [|q qs]; [discriminate|].
  intros E. injection E as <-. apply fold_left_Qmin2.
Qed.

Lemma series_max_spec (s : list float) (hi : Q) :
  series_max s = Num hi ->
  In hi (present s) /\ forall y, In y (present s) -> (y <= hi)%Q.
Proof.
  unfold series_max. destruct (present s) as [|q qs]; [discriminate|].
  intros E. injection E as <-. apply fold_left_Qmax2.
Qed.

Lemma In_present (s : list float) (q : Q) : In q (present s) <-> In (Num q) s.
Proof.
  induction s as [|[a|] s IH]; simpl; [tauto| |].
  - rewrite IH. split; intros [H|H]; auto; left; congruence.
  - rewrite IH. split; [auto|]. intros [H|H]; [discriminate|assumption].
Qed.

(** X9.  With the slider at the maximum of the column, the billing callback keeps
    every row of the gender-filtered frame that has a Billing Amount; with
    it at the minimum and no gender selected, at least one row is kept. *)
Theorem slider_extremes (data : DataFrame) (selected_gender : pyval) (lo hi : Q) :
  series_min (map Billing_Amount data) = Num lo ->
  series_max (map Billing_Amount data) = Num hi ->
  billing_slider_filter hi (billing_gender_filter selected_gender data)
  = filter (fun r => negb (isna (Billing_Amount r)))
      (billing_gender_filter selected_gender data) /\
  billing_slider_filter lo (billing_gender_filter PyNone data) <> [].
Proof.
  intros Hlo Hhi.
  apply series_min_spec in Hlo. destruct Hlo as [Hlo _].
  apply series_max_spec in Hhi. destruct Hhi as [_ Hhi].
  split.
  - unfold billing_slider_filter. apply filter_ext_in. intros r Hr.
    destruct (Billing_Amount r) as [q|] eqn:Eq; simpl; [|reflexivity].
    apply Qle_bool_iff, Hhi, In_present.
    rewrite <- Eq. apply in_map.
    unfold billing_gender_filter in Hr.
    destruct (truthy selected_gender); [now apply filter_In in Hr|assumption].
  - apply In_present, in_map_iff in Hlo. destruct Hlo as (r & Er & Hr).
    intros Hnil.
    assert (In r (billing_slider_filter lo (billing_gender_filter PyNone data))) as H.
    { unfold billing_slider_filter, billing_gender_filter. simpl.
      apply filter_In. split; [assumption|]. rewrite Er. simpl.
      apply Qle_bool_iff, Qle_refl. }
    rewrite Hnil in H. contradiction.
Qed.

Lemma slider_extremes_witness :
  series_min (map Billing_Amount (damaged_row :: sample_data)) = Num (100 # 1) /\
  series_max (map Billing_Amount (damaged_row :: sample_data)) = Num (200 # 1) /\
  billing_slider_filter (200 # 1)
    (billing_gender_filter PyNone (damaged_row :: sample_data)) = sample_data.
Proof.
  split; [reflexivity|]. split; [reflexivity|].
  exact (proj1 (slider_extremes (damaged_row :: sample_data) PyNone
                  (100 # 1) (200 # 1) eq_refl eq_refl)).
Defined.

(** ** Sorting *)

Lemma insert_sorted_perm (x : Q) (l : list Q) : Permutation (insert_sorted x l) (x :: l).
Proof.
  induction l as [|y l IH]; simpl; [reflexivity|].
  destruct (Qle_bool x y); [reflexivity|].
  rewrite IH. apply perm_swap.
Qed.

Lemma sort_values_perm (l : list Q) : Permutation (sort_values l) l.
Proof.
  induction l as [|x l IH]; simpl; [reflexivity|].
  rewrite insert_sorted_perm. now constructor.
Qed.

Lemma insert_sorted_sorted (x : Q) (l : list Q) :
  StronglySorted Qle l -> StronglySorted Qle (insert_sorted x l).
Proof.
  induction l as [|y l IH]; simpl; intros Hs.
  - repeat constructor.
  - inversion Hs as [|? ? Hl Hy]; subst.
    destruct (Qle_bool x y) eqn:Hxy.
    + apply Qle_bool_iff in Hxy. constructor; [assumption|].
      constructor; [assumption|].
      rewrite Forall_forall in Hy |- *. intros z Hz.
      apply Qle_trans with y; auto.
    + apply Qle_bool_false in Hxy. constructor; [now apply IH|].
      rewrite Forall_forall in Hy |- *. intros z Hz.
      apply (Permutation_in _ (insert_sorted_perm x l)) in Hz.
      destruct Hz as [<-|Hz]; auto.
Qed.

Lemma sort_values_sorted (l : list Q) : StronglySorted Qle (sort_values l).
Proof.
  induction l as [|x l IH]; simpl; [constructor|].
  now apply insert_sorted_sorted.
Qed.

Lemma sort_values_length (l : list Q) : length (sort_values l) = length l.
Proof. apply Permutation_length, sort_values_perm. Qed.

Lemma sorted_nth_le (l : list Q) (i j : nat) :
  StronglySorted Qle l -> (i <= j)%nat -> (j < length l)%nat ->
  (nth i l 0 <= nth j l 0)%Q.
Proof.
  intros Hs. revert i j. induction Hs as [|a l Hl IH Ha]; intros i j Hij Hj.
  - simpl in Hj. lia.
  - destruct i as [|i], j as [|j]; simpl in *; try lia.
    + apply Qle_refl.
    + rewrite Forall_forall in Ha. apply Ha, nth_In. lia.
    + apply IH; lia.
Qed.

(** ** Counting admissions *)

Lemma total_count_count_key (k : Period) (acc : list (Period * nat)) :
  total_count (count_key k acc) = S (total_count acc).
Proof.
  induction acc as [|[k' c] rest IH]; simpl; [reflexivity|].
  destruct (k <? k'); [reflexivity|]. destruct (k =? k'); simpl; [reflexivity|].
  rewrite IH. lia.
Qed.

Lemma total_count_groupby (df : DataFrame) :
  total_count (groupby_YearMonth_size df)
  = length (filter (fun r => match YearMonth r with
                             | Some _ => true
                             | None => false
                             end) df).
Proof.
  induction df as [|r df IH]; simpl; [reflexivity|].
  destruct (YearMonth r); simpl; [|assumption].
  now rewrite total_count_count_key, IH.
Qed.

(** X12.  The counts of the admission chart add up to the number of rows that pass
    the condition filter and have a month: every such row is counted once,
    and no count exceeds the number of records. *)
Theorem admission_counts_total (data : DataFrame) (selected_condition : pyval) :
  total_count (admission_counts data selected_condition)
  = length
      (filter
         (fun r =>
            (negb (truthy selected_condition)
             || str_eq (Medical_Condition r) selected_condition)
            && match YearMonth r with
               | Some _ => true
               | None => false
               end)
         data) /\
  (total_count (admission_counts data selected_condition) <= num_records data)%nat.
Proof.
  assert (total_count (admission_counts data selected_condition)
          = length
              (filter
                 (fun r =>
                    (negb (truthy selected_condition)
                     || str_eq (Medical_Condition r) selected_condition)
                    && match YearMonth r with
                       | Some _ => true
                       | None => false
                       end)
                 data)) as E.
  { unfold admission_counts. rewrite total_count_groupby.
    destruct (truthy selected_condition); simpl.
    - now rewrite filter_conj.
    - reflexivity. }
  split; [exact E|]. rewrite E. apply filter_length_le.
Qed.

(** ** Slider marks and the layout *)

Lemma quantile_NaN_iff (s : list float) (q : Q) :
  quantile s q = NaN <-> present s = [].
Proof.
  unfold quantile. rewrite sort_values_length.
  destruct (present s) as [|a l]; simpl; split; intros H;
    try reflexivity; discriminate.
Qed.

Lemma dict_set_keys (k : Z) (v : string) (d : list (Z * string)) (k0 : Z) :
  In k0 (map fst (dict_set k v d)) <-> k0 = k \/ In k0 (map fst d).
Proof.
  induction d as [|[k' v'] d IH]; simpl.
  - intuition.
  - destruct (Z.eqb_spec k k') as [->|Hne]; simpl; [intuition|].
    rewrite IH. intuition.
Qed.

Lemma dict_set_NoDup (k : Z) (v : string) (d : list (Z * string)) :
  NoDup (map fst d) -> NoDup (map fst (dict_set k v d)).
Proof.
  induction d as [|[k' v'] d IH]; simpl; intros Hnd.
  - repeat constructor. simpl. tauto.
  - inversion Hnd as [|? ? Hk' Hd]; subst.
    destruct (Z.eqb_spec k k') as [->|Hne]; simpl.
    + now constructor.
    + constructor; [|now apply IH].
      rewrite dict_set_keys. intros [E|H]; [congruence|contradiction].
Qed.

Lemma dict_set_labels (P : Z * string -> Prop) (k : Z) (v : string)
    (d : list (Z * string)) :
  P (k, v) -> Forall P d -> Forall P (dict_set k v d).
Proof.
  intros Hk. induction d as [|[k' v'] d IH]; simpl; intros Hd.
  - now repeat constructor.
  - inversion Hd; subst. destruct (k =? k'); constructor; auto.
Qed.

Lemma dict_set_length (k : Z) (v : string) (d : list (Z * string)) :
  (length d <= length (dict_set k v d) <= S (length d))%nat.
Proof.
  induction d as [|[k' v'] d IH]; simpl; [lia|].
  destruct (k =? k'); simpl; lia.
Qed.

Lemma marks_from_spec (values : list float) (d m : list (Z * string)) :
  marks_from values d = Ok m ->
  NoDup (map fst d) ->
  Forall (fun kv => snd kv = "$" ++ format_commas (fst kv)) d ->
  NoDup (map fst m) /\
  Forall (fun kv => snd kv = "$" ++ format_commas (fst kv)) m /\
  (length d <= length m <= length d + length values)%nat /\
  forall k, In k (map fst m) <->
            In k (map fst d) \/ exists x, In x values /\ py_int x = Ok k.
Proof.
  revert d. induction values as [|x values IH]; simpl; intros d E Hnd Hlab.
  - injection E as <-.
    split; [assumption|]. split; [assumption|]. split; [lia|].
    intros k. split; [now left|]. intros [H|(x & [] & _)]. exact H.
  - destruct (py_int x) as [k|e] eqn:Ex; simpl in E; [|discriminate].
    destruct (IH _ E (dict_set_NoDup _ _ _ Hnd)
                (dict_set_labels _ _ _ _ eq_refl Hlab))
      as (H1 & H2 & H3 & H4).
    pose proof (dict_set_length k ("$" ++ format_commas k) d) as Hlen.
    simpl in Hlen, H3.
    split; [assumption|]. split; [assumption|]. split; [lia|].
    intros k0. rewrite H4, dict_set_keys. split.
    + intros [[->|Hk]|(y & Hy & Ey)]; eauto.
    + intros [Hk|(y & [<-|Hy] & Ey)]; eauto.
      left. left. congruence.
Qed.

Lemma marks_from_NaN (values : list float) (d : list (Z * string)) :
  marks_from (NaN :: values) d
  = Raise (ValueError "cannot convert float NaN to integer").
Proof. reflexivity. Qed.

Lemma marks_from_present (values : list float) (d : list (Z * string)) :
  Forall (fun x => x <> NaN) values -> exists m, marks_from values d = Ok m.
Proof.
  revert d. induction values as [|x values IH]; simpl; intros d H; [eauto|].
  inversion H as [|? ? Hx Hv]; subst.
  destruct x as [q|]; [|contradiction]. simpl. now apply IH.
Qed.

Lemma slider_marks_result (data : DataFrame) :
  (Forall (fun r => Billing_Amount r = NaN) data /\
   slider_marks data = Raise (ValueError "cannot convert float NaN to integer"))
  \/
  (~ Forall (fun r => Billing_Amount r = NaN) data /\
   exists m, slider_marks data = Ok m).
Proof.
  unfold slider_marks.
  pose proof (present_nil_iff (map Billing_Amount data)) as Hnil.
  rewrite Forall_map in Hnil.
  destruct (present (map Billing_Amount data)) as [|a l] eqn:Ep.
  - left. split; [now apply Hnil|].
    simpl. rewrite (proj2 (quantile_NaN_iff _ 0%Q) Ep). reflexivity.
  - right. split.
    + intros H. apply Hnil in H. discriminate.
    + apply marks_from_present. apply Forall_forall. intros x Hx.
      apply in_map_iff in Hx. destruct Hx as (q & <- & _).
      intros Hq. apply quantile_NaN_iff in Hq. congruence.
Qed.

(** ** Month labels *)

Lemma all_from_spec (fuel : nat) (z : Z) (f : Z -> bool) :
  all_from fuel z f = true ->
  forall k, z <= k < z + Z.of_nat fuel -> f k = true.
Proof.
  revert z. induction fuel as [|fuel IH]; intros z H k Hk; [lia|].
  simpl in H. apply andb_true_iff in H. destruct H as [Hz Hrest].
  destruct (Z.eq_dec k z) as [->|Hne]; [assumption|].
  apply (IH (z + 1) Hrest). lia.
Qed.

Lemma four_digits_decode (y : Z) :
  0 <= y <= 9999 -> decode4 (four_digits y) = Some y.
Proof.
  intros Hy.
  assert (all_from (Z.to_nat 10000) 0
            (fun y => match decode4 (four_digits y) with
                      | Some y' => y' =? y
                      | None => false
                      end) = true) as Hall by (vm_compute; reflexivity).
  assert (0 <= y < 0 + Z.of_nat (Z.to_nat 10000)) as Hk by lia.
  pose proof (all_from_spec _ _ _ Hall y Hk) as H. simpl in H.
  destruct (decode4 (four_digits y)) as [y'|]; [|discriminate].
  apply Z.eqb_eq in H. now subst.
Qed.

Lemma two_digits_decode (m : Z) :
  1 <= m <= 12 -> decode2 (two_digits m) = Some m.
Proof.
  intros Hm.
  assert (all_from 12 1
            (fun m => match decode2 (two_digits m) with
                      | Some m' => m' =? m
                      | None => false
                      end) = true) as Hall by (vm_compute; reflexivity).
  assert (1 <= m < 1 + Z.of_nat 12) as Hk by lia.
  pose proof (all_from_spec _ _ _ Hall m Hk) as H. simpl in H.
  destruct (decode2 (two_digits m)) as [m'|]; [|discriminate].
  apply Z.eqb_eq in H. now subst.
Qed.

Lemma period_of_str_append (s1 s2 : string) (y m : Z) :
  decode4 s1 = Some y -> decode2 s2 = Some m ->
  period_of_str (s1 ++ "-" ++ s2) = Some ((y - 1970) * 12 + (m - 1)).
Proof.
  unfold decode4, decode2, period_of_str.
  destruct s1 as [|a [|b [|c [|d [|e s1]]]]]; try discriminate.
  destruct s2 as [|f [|g [|h s2]]]; try discriminate;
    cbn [list_ascii_of_string String.append];
    try (destruct (digit_of_ascii a), (digit_of_ascii b), (digit_of_ascii c),
           (digit_of_ascii d); discriminate).
  destruct (digit_of_ascii a), (digit_of_ascii b), (digit_of_ascii c),
    (digit_of_ascii d); try discriminate.
  destruct (digit_of_ascii f), (digit_of_ascii g); try discriminate.
  intros E1 E2. injection E1 as <-. injection E2 as <-. reflexivity.
Qed.

Lemma period_str_round_trip (p : Period) :
  four_digit_year p -> period_of_str (period_str p) = Some p.
Proof.
  unfold four_digit_year. intros Hp. unfold period_str.
  pose proof (Z.mod_pos_bound p 12 ltac:(lia)) as Hm.
  rewrite (period_of_str_append _ _ (1970 + p / 12) (p mod 12 + 1)).
  - unfold Period in *. pose proof (Z.div_mod p 12 ltac:(lia)).
    apply (f_equal (@Some Z)). lia.
  - now apply four_digits_decode.
  - apply two_digits_decode. lia.
Qed.

Lemma admission_counts_keys (data : DataFrame) (v : pyval) (k : Period) (c : nat) :
  In (k, c) (admission_counts data v) ->
  exists r, In r data /\ YearMonth r = Some k.
Proof.
  unfold admission_counts. intros H. apply groupby_buckets in H.
  destruct H as [-> Hpos]. unfold bucket_size in Hpos.
  match type of Hpos with
  | (0 < length (filter ?f ?l))%nat =>
      destruct (filter f l) as [|r rows] eqn:Ef; [simpl in Hpos; lia|];
      assert (In r (filter f l)) as Hin by (rewrite Ef; now left)
  end.
  apply filter_In in Hin. destruct Hin as [Hr Hk].
  exists r. split.
  - destruct (truthy v); [now apply filter_In in Hr|assumption].
  - destruct (YearMonth r) as [k'|]; [|discriminate].
    apply Z.eqb_eq in Hk. now subst.
Qed.

Lemma NoDup_map_injective_in {A B : Type} (f : A -> B) (l : list A) :
  (forall x y, In x l -> In y l -> f x = f y -> x = y) ->
  NoDup l -> NoDup (map f l).
Proof.
  intros Hinj Hnd. induction Hnd as [|a l Ha Hl IH]; simpl; constructor.
  - intros Hin. apply in_map_iff in Hin. destruct Hin as (y & E & Hy).
    apply Ha. rewrite <- (Hinj y a); simpl; auto.
  - apply IH. intros x y Hx Hy. apply Hinj; now right.
Qed.

Lemma Sorted_lt_NoDup (l : list Z) : Sorted Z.lt l -> NoDup l.
Proof.
  intros Hs. apply Sorted_StronglySorted in Hs;
    [|exact Z.lt_strorder.(StrictOrder_Transitive)].
  induction Hs as [|k l Hl IH Hk]; constructor; [|assumption].
  intros Hin. rewrite Forall_forall in Hk. specialize (Hk k Hin). lia.
Qed.

(** X15.  Turning the months into text loses nothing: when every month of the table
    has a four-digit year, the labels of the admission chart read back as the
    months they stand for, so distinct buckets carry distinct labels. *)
Theorem admission_labels_distinct (data : DataFrame) (selected_condition : pyval) :
  (forall r p, In r data -> YearMonth r = Some p -> four_digit_year p) ->
  let trend := admission_counts data selected_condition in
  map (fun xc => period_of_str (fst xc)) (YearMonth_astype_str trend)
  = map (fun kc => Some (fst kc)) trend /\
  NoDup (map fst (YearMonth_astype_str trend)).
Proof.
  intros Hrange trend.
  assert (forall k, In k (map fst trend) -> four_digit_year k) as Hkeys.
  { intros k Hin. apply in_map_iff in Hin. destruct Hin as ([k' c] & <- & Hin).
    destruct (admission_counts_keys _ _ _ _ Hin) as (r & Hr & Ek).
    exact (Hrange r k' Hr Ek). }
  split.
  - unfold YearMonth_astype_str. rewrite map_map. apply map_ext_in.
    intros kc Hin. simpl. apply period_str_round_trip, Hkeys. now apply in_map.
  - unfold YearMonth_astype_str. rewrite map_map. simpl.
    rewrite <- (map_map fst period_str).
    apply NoDup_map_injective_in.
    + intros x y Hx Hy E.
      pose proof (period_str_round_trip x (Hkeys x Hx)) as Ex.
      pose proof (period_str_round_trip y (Hkeys y Hy)) as Ey.
      rewrite E, Ey in Ex. now injection Ex.
    + apply Sorted_lt_NoDup. unfold trend, admission_counts. apply groupby_Sorted.
Qed.

Lemma admission_labels_distinct_witness :
  (forall r p, In r sample_data -> YearMonth r = Some p -> four_digit_year p) /\
  NoDup (map fst (YearMonth_astype_str (admission_counts sample_data PyNone))).
Proof.
  assert (forall r p, In r sample_data -> YearMonth r = Some p ->
                      four_digit_year p) as H.
  { intros r p [<-|[<-|[]]] E; injection E as <-; unfold four_digit_year;
      split; apply Z.leb_le; reflexivity. }
  split; [exact H|].
  exact (proj2 (admission_labels_distinct sample_data PyNone H)).
Defined.

(** ** Where the marks lie *)

Lemma trunc_le (a b : Q) :
  (a <= b)%Q -> Z.quot (Qnum a) (Zpos (Qden a)) <= Z.quot (Qnum b) (Zpos (Qden b)).
Proof.
  destruct a as [n1 d1], b as [n2 d2]. unfold Qle. simpl. intros H.
  rewrite <- (Z.quot_mul_cancel_r n1 (Zpos d1) (Zpos d2)) by lia.
  rewrite <- (Z.quot_mul_cancel_r n2 (Zpos d2) (Zpos d1)) by lia.
  rewrite (Z.mul_comm (Zpos d2) (Zpos d1)).
  apply Z.quot_le_mono; lia.
Qed.

Lemma trunc_Qeq (a b : Q) :
  (a == b)%Q -> Z.quot (Qnum a) (Zpos (Qden a)) = Z.quot (Qnum b) (Zpos (Qden b)).
Proof.
  intros E. apply Z.le_antisymm; apply trunc_le; rewrite E; apply Qle_refl.
Qed.

Lemma quantile_unfold (s : list float) (q : Q) :
  present s <> [] ->
  let v := sort_values (present s) in
  let pos := (q * inject_Z (Z.of_nat (length v - 1)))%Q in
  let below := Z.to_nat (Qfloor pos) in
  let above := Nat.min (S below) (length v - 1) in
  quantile s q
  = Num (nth below v 0 + (nth above v 0 - nth below v 0)
                         * (pos - inject_Z (Qfloor pos)))%Q.
Proof.
  intros Hne. unfold quantile.
  destruct (Nat.eqb_spec (length (sort_values (present s))) 0) as [E|_];
    [|reflexivity].
  rewrite sort_values_length in E. destruct (present s); [contradiction|discriminate].
Qed.

Lemma convex_between (a b g lo hi : Q) :
  (lo <= a <= hi)%Q -> (lo <= b <= hi)%Q -> (0 <= g <= 1)%Q ->
  (lo <= a + (b - a) * g <= hi)%Q.
Proof.
  intros [Ha0 Ha1] [Hb0 Hb1] [Hg0 Hg1].
  assert (0 <= (a - lo) * (1 - g))%Q by (apply Qmult_le_0_compat; lra).
  assert (0 <= (b - lo) * g)%Q by (apply Qmult_le_0_compat; lra).
  assert (0 <= (hi - a) * (1 - g))%Q by (apply Qmult_le_0_compat; lra).
  assert (0 <= (hi - b) * g)%Q by (apply Qmult_le_0_compat; lra).
  split; lra.
Qed.

Lemma quantile_between (s : list float) (q x lo hi : Q) :
  (0 <= q <= 1)%Q ->
  (forall y, In y (present s) -> (lo <= y <= hi)%Q) ->
  quantile s q = Num x ->
  (lo <= x <= hi)%Q.
Proof.
  intros Hq Hb E.
  assert (present s <> []) as Hne.
  { intros Hnil. apply (quantile_NaN_iff s q) in Hnil. congruence. }
  rewrite (quantile_unfold s q Hne) in E. cbv zeta in E. injection E as <-.
  set (v := sort_values (present s)).
  assert (length v <> 0)%nat as Hlen.
  { unfold v. rewrite sort_values_length. destruct (present s); [contradiction|discriminate]. }
  set (pos := (q * inject_Z (Z.of_nat (length v - 1)))%Q).
  assert (0 <= inject_Z (Z.of_nat (length v - 1)))%Q as Hn.
  { change 0%Q with (inject_Z 0). rewrite <- Zle_Qle. lia. }
  assert (0 <= pos <= inject_Z (Z.of_nat (length v - 1)))%Q as Hpos.
  { unfold pos. split; [|nra]. apply Qmult_le_0_compat; tauto. }
  assert (0 <= Qfloor pos <= Z.of_nat (length v - 1)) as Hfl.
  { split.
    - change 0 with (Qfloor 0). apply Qfloor_resp_le. tauto.
    - rewrite <- (Qfloor_Z (Z.of_nat (length v - 1))). apply Qfloor_resp_le. tauto. }
  pose proof (Qfloor_le pos) as Hg0. pose proof (Qlt_floor pos) as Hg1.
  rewrite inject_Z_plus in Hg1. change (inject_Z 1) with 1%Q in Hg1.
  set (g := (pos - inject_Z (Qfloor pos))%Q).
  assert (0 <= g <= 1)%Q as Hg by (unfold g; split; lra).
  assert (forall k, (k < length v)%nat -> (lo <= nth k v 0 <= hi)%Q) as Hnth.
  { intros k Hk. apply Hb. apply (Permutation_in _ (sort_values_perm _)).
    now apply nth_In. }
  pose proof (Hnth (Z.to_nat (Qfloor pos)) ltac:(lia)) as Ha.
  pose proof (Hnth (Nat.min (S (Z.to_nat (Qfloor pos))) (length v - 1)) ltac:(lia)) as Hb'.
  now apply convex_between.
Qed.

Lemma quantile_0 (s : list float) (lo : Q) :
  series_min s = Num lo ->
  exists x, quantile s 0 = Num x /\ (x == lo)%Q.
Proof.
  intros Hlo. apply series_min_spec in Hlo. destruct Hlo as [Hin Hle].
  assert (present s <> []) as Hne by (intros E; rewrite E in Hin; contradiction).
  rewrite (quantile_unfold s 0 Hne). cbv zeta.
  set (v := sort_values (present s)).
  assert (length v <> 0)%nat as Hlen.
  { unfold v. rewrite sort_values_length. destruct (present s); [contradiction|discriminate]. }
  eexists. split; [reflexivity|].
  assert (0 * inject_Z (Z.of_nat (length v - 1)) == 0)%Q as E0 by lra.
  assert (Qfloor (0 * inject_Z (Z.of_nat (length v - 1))) = 0) as Ef.
  { rewrite E0. reflexivity. }
  rewrite Ef. change (Z.to_nat 0) with 0%nat.
  assert (nth 0 v 0 == lo)%Q as Ehead.
  { apply Qle_antisym.
    - apply (Permutation_in _ (Permutation_sym (sort_values_perm _))) in Hin.
      fold v in Hin. apply In_nth with (d := 0%Q) in Hin.
      destruct Hin as (k & Hk & <-).
      apply sorted_nth_le; [apply sort_values_sorted|lia|assumption].
    - apply Hle. apply (Permutation_in _ (sort_values_perm _)).
      apply nth_In. fold v. lia. }
  rewrite E0. change (inject_Z 0) with 0%Q. rewrite Ehead. lra.
Qed.

Lemma quantile_1 (s : list float) (hi : Q) :
  series_max s = Num hi ->
  exists x, quantile s 1 = Num x /\ (x == hi)%Q.
Proof.
  intros Hhi. apply series_max_spec in Hhi. destruct Hhi as [Hin Hle].
  assert (present s <> []) as Hne by (intros E; rewrite E in Hin; contradiction).
  rewrite (quantile_unfold s 1 Hne). cbv zeta.
  set (v := sort_values (present s)).
  assert (length v <> 0)%nat as Hlen.
  { unfold v. rewrite sort_values_length. destruct (present s); [contradiction|discriminate]. }
  eexists. split; [reflexivity|].
  assert (1 * inject_Z (Z.of_nat (length v - 1))
          == inject_Z (Z.of_nat (length v - 1)))%Q as E1 by lra.
  assert (Qfloor (1 * inject_Z (Z.of_nat (length v - 1)))
          = Z.of_nat (length v - 1)) as Ef.
  { rewrite E1. apply Qfloor_Z. }
  rewrite Ef, Nat2Z.id.
  replace (Nat.min (S (length v - 1)) (length v - 1)) with (length v - 1)%nat by lia.
  assert (nth (length v - 1) v 0 == hi)%Q as Elast.
  { apply Qle_antisym.
    - apply Hle. apply (Permutation_in _ (sort_values_perm _)).
      apply nth_In. fold v. lia.
    - apply (Permutation_in _ (Permutation_sym (sort_values_perm _))) in Hin.
      fold v in Hin. apply In_nth with (d := 0%Q) in Hin.
      destruct Hin as (k & Hk & <-).
      apply sorted_nth_le; [apply sort_values_sorted|lia|lia]. }
  rewrite E1, Elast. lra.
Qed.

(** X18.  The marks sit on the slider: every mark lies between the truncated
    minimum and the truncated maximum of the column, and both of these ends
    carry a mark. *)
Theorem slider_marks_in_range (data : DataFrame) (m : list (Z * string))
    (lo hi : Q) :
  slider_marks data = Ok m ->
  series_min (map Billing_Amount data) = Num lo ->
  series_max (map Billing_Amount data) = Num hi ->
  let k_lo := Z.quot (Qnum lo) (Zpos (Qden lo)) in
  let k_hi := Z.quot (Qnum hi) (Zpos (Qden hi)) in
  In k_lo (map fst m) /\ In k_hi (map fst m) /\
  forall k, In k (map fst m) -> k_lo <= k <= k_hi.
Proof.
  intros Em Hlo Hhi k_lo k_hi. unfold slider_marks in Em.
  destruct (marks_from_spec _ _ _ Em (NoDup_nil _) (Forall_nil _))
    as (_ & _ & _ & Hkeys).
  assert (forall q k, In q quantile_points ->
                      py_int (quantile (map Billing_Amount data) q) = Ok k ->
                      In k (map fst m)) as Hmark.
  { intros q k Hq Ek. apply Hkeys. right. eexists. split; [|exact Ek].
    now apply in_map. }
  destruct (quantile_0 _ _ Hlo) as (x0 & E0 & Ex0).
  destruct (quantile_1 _ _ Hhi) as (x1 & E1 & Ex1).
  split; [|split].
  - apply (Hmark 0%Q); [now left|]. rewrite E0. simpl. f_equal.
    now apply trunc_Qeq.
  - apply (Hmark 1%Q); [simpl; tauto|]. rewrite E1. simpl. f_equal.
    now apply trunc_Qeq.
  - intros k Hk. apply Hkeys in Hk. destruct Hk as [[]|(x & Hx & Ek)].
    apply in_map_iff in Hx. destruct Hx as (q & Eq & Hq).
    destruct x as [x|]; [|discriminate]. simpl in Ek. injection Ek as <-.
    assert (0 <= q <= 1)%Q as Hq01.
    { simpl in Hq. destruct Hq as [<-|[<-|[<-|[<-|[<-|[]]]]]]; split;
        apply Qle_bool_iff; reflexivity. }
    apply series_min_spec in Hlo. apply series_max_spec in Hhi.
    assert (lo <= x <= hi)%Q as Hx.
    { apply (quantile_between (map Billing_Amount data) q x lo hi Hq01);
        [|exact Eq].
      intros y Hy. split; [now apply Hlo|now apply Hhi]. }
    split; apply trunc_le; tauto.
Qed.

Lemma slider_marks_in_range_witness :
  slider_marks sample_data
  = Ok [(100, "$100"); (125, "$125"); (150, "$150"); (175, "$175"); (200, "$200")] /\
  In 100 [100; 125; 150; 175; 200] /\ In 200 [100; 125; 150; 175; 200].
Proof.
  split; [reflexivity|].
  destruct (slider_marks_in_range sample_data _ (100 # 1) (200 # 1)
              eq_refl eq_refl eq_refl) as (H1 & H2 & _).
  split; [exact H1|exact H2].
Defined.

(** ** The callbacks on the store *)

Lemma nth_error_end (h t : Heap) (o : object) :
  nth_error (h ++ o :: t) (length h) = Some o.
Proof. rewrite nth_error_app2, Nat.sub_diag by lia. reflexivity. Qed.

Lemma nth_error_kept (h t : Heap) (p : ref) (o : object) :
  nth_error h p = Some o -> nth_error (h ++ t) p = Some o.
Proof.
  intros H. rewrite nth_error_app1; [assumption|].
  apply nth_error_Some. congruence.
Qed.

Lemma replace_nth_end (h : Heap) (o o' : object) :
  replace_nth (length h) o' (h ++ [o])%list = (h ++ [o'])%list.
Proof. induction h as [|x h IH]; simpl; [reflexivity|]. now rewrite IH. Qed.

Lemma get_spec (h : Heap) (p : ref) (o : object) :
  nth_error h p = Some o -> get p h = Some (o, h).
Proof. unfold get. now intros ->. Qed.

(** Selecting rows either makes a new frame at the end of the store or hands
    back the reference it was given; the store it started from is a prefix
    of the one it leaves. *)
Lemma select_rows_spec (data : ref) (key : Row -> string) (selected : pyval)
    (h : Heap) (df : DataFrame) :
  nth_error h data = Some (frame df) ->
  exists p t,
    select_rows data key selected h = Some (p, (h ++ t)%list) /\
    nth_error (h ++ t) p
    = Some (frame (if truthy selected
                   then filter (fun r => str_eq (key r) selected) df
                   else df)).
Proof.
  intros Hd. unfold select_rows. destruct (truthy selected).
  - exists (length h), [frame (filter (fun r => str_eq (key r) selected) df)].
    unfold getitem_mask, pbind. rewrite (get_spec _ _ _ Hd).
    split; [reflexivity|apply nth_error_end].
  - exists data, []. rewrite app_nil_r. split; [reflexivity|assumption].
Qed.

Lemma handle_spec (data : ref) (rq : request) (h : Heap) (df : DataFrame) :
  nth_error h data = Some (frame df) ->
  exists t, handle data rq h = Some (figure_of df rq, (h ++ t)%list).
Proof.
  intros Hd. destruct rq as [v|v|v|v x|c v]; simpl.
  - unfold update_distribution_callback, update_distribution, pbind.
    destruct (select_rows_spec data Gender v h df Hd) as (p & t & -> & Hp).
    exists t. unfold is_empty, histogram, pbind. rewrite (get_spec _ _ _ Hp).
    unfold ret. destruct (empty _); [reflexivity|].
    now rewrite (get_spec _ _ _ Hp).
  - unfold update_medical_condition_callback, update_medical_condition, pbind.
    destruct (select_rows_spec data Gender v h df Hd) as (p & t & -> & Hp).
    exists t. unfold pie, pbind. now rewrite (get_spec _ _ _ Hp).
  - unfold update_insurance_callback, update_insurance, pbind.
    destruct (select_rows_spec data Gender v h df Hd) as (p & t & -> & Hp).
    exists t. unfold bar, pbind. now rewrite (get_spec _ _ _ Hp).
  - unfold update_billing_callback, update_billing, pbind.
    destruct (select_rows_spec data Gender v h df Hd) as (p & t & -> & Hp).
    unfold getitem_mask, histogram, pbind, new. rewrite (get_spec _ _ _ Hp).
    rewrite (get_spec _ (length (h ++ t)%list) _ (nth_error_end (h ++ t)%list [] _)).
    eexists. rewrite <- app_assoc. reflexivity.
  - unfold update_admission_callback, update_admission, admission_counts, pbind.
    destruct (select_rows_spec data Medical_Condition v h df Hd)
      as (p & t & -> & Hp).
    unfold groupby_size_reset_index, setitem_YearMonth_astype_str, put, pbind, new.
    rewrite (get_spec _ _ _ Hp).
    rewrite (get_spec _ (length (h ++ t)%list) _ (nth_error_end (h ++ t)%list [] _)).
    rewrite (proj2 (Nat.ltb_lt _ _))
      by (rewrite (length_app (h ++ t)%list); simpl; lia).
    rewrite replace_nth_end.
    exists (t ++ [text_counts_frame
                    (YearMonth_astype_str
                       (groupby_YearMonth_size
                          (if truthy v
                           then filter (fun r => str_eq (Medical_Condition r) v) df
                           else df)))])%list.
    rewrite app_assoc.
    unfold line_trend, bar_trend, pbind.
    destruct (str_eq "line" c);
      now rewrite (get_spec _ (length (h ++ t)%list) _ (nth_error_end (h ++ t)%list [] _)).
Qed.

(** C6.  Each callback, run statement by statement on the store, answers a
    request with the figure that the table and the control values determine
    and changes no object that was in the store before: what it makes (the
    filtered frame, the frame of counts it then overwrites in place) is
    new.  Hence the table is as it was, and firing the callback again with
    the same control values returns the same figure. *)
Theorem handle_deterministic (data : ref) (rq : request) (h : Heap)
    (df : DataFrame) :
  nth_error h data = Some (frame df) ->
  exists h1 h2,
    handle data rq h = Some (figure_of df rq, h1) /\
    handle data rq h1 = Some (figure_of df rq, h2) /\
    nth_error h1 data = Some (frame df) /\
    (forall p o, nth_error h p = Some o -> nth_error h1 p = Some o).
Proof.
  intros Hd.
  destruct (handle_spec data rq h df Hd) as (t & E1).
  assert (nth_error (h ++ t) data = Some (frame df)) as Hd1
      by now apply nth_error_kept.
  destruct (handle_spec data rq (h ++ t)%list df Hd1) as (t' & E2).
  exists (h ++ t)%list, ((h ++ t) ++ t')%list.
  split; [exact E1|]. split; [exact E2|]. split; [exact Hd1|].
  intros p o Hp. now apply nth_error_kept.
Qed.

Lemma handle_deterministic_witness :
  nth_error [frame sample_data] data_ref = Some (frame sample_data) /\
  exists h1 h2,
    handle data_ref (admission_trends (PyStr "line") PyNone) [frame sample_data]
    = Some (update_admission sample_data (PyStr "line") PyNone, h1) /\
    handle data_ref (admission_trends (PyStr "line") PyNone) h1
    = Some (update_admission sample_data (PyStr "line") PyNone, h2) /\
    nth_error h1 data_ref = Some (frame sample_data).
Proof.
  split; [reflexivity|].
  destruct (handle_deterministic data_ref (admission_trends (PyStr "line") PyNone)
              [frame sample_data] sample_data eq_refl)
    as (h1 & h2 & E1 & E2 & Hd & _).
  exists h1, h2. split; [exact E1|]. split; [exact E2|exact Hd].
Defined.

(** A write is seen through every name of the object: had a callback written
    to the frame it got from [select_rows] when no filter was applied, the
    table would have changed. *)
Lemma put_seen (p : ref) (o : object) (h h' : Heap) :
  put p o h = Some (tt, h') -> nth_error h' p = Some o.
Proof.
  unfold put. destruct (p <? length h)%nat eqn:Hp; [|discriminate].
  intros E. injection E as <-. apply Nat.ltb_lt in Hp.
  revert p Hp. induction h as [|x h IH]; intros p Hp; simpl in *; [lia|].
  destruct p as [|p]; [reflexivity|]. simpl. apply IH. lia.
Qed.

(** ** Missing Billing Amounts at start-up *)

Lemma all_missing_count (df : DataFrame) :
  Forall (fun r => Billing_Amount r = NaN) df ->
  filter (fun v => negb (isna v)) (map Billing_Amount df) = [].
Proof.
  intros H. apply filter_none. intros v Hv. apply in_map_iff in Hv.
  destruct Hv as (r & <- & Hr). rewrite Forall_forall in H.
  now rewrite (H r Hr).
Qed.

Lemma all_missing_layout float_sum float_div format_2f (df : DataFrame) :
  Forall (fun r => Billing_Amount r = NaN) df ->
  layout float_sum float_div format_2f df
  = Raise (ValueError "cannot convert float NaN to integer").
Proof.
  intros H. unfold layout, billing_slider.
  destruct (slider_marks_result df) as [[_ ->]|[Hnot _]];
    [reflexivity|contradiction].
Qed.

(** C4.  When every row's Billing Amount is missing, the mean itself does not
    raise: it is NaN and the statistics text reads ["nan"].  But the value is
    never displayed: building the layout then raises [ValueError] at the
    slider marks ([int] of a NaN quantile), so the module does not come
    up. *)
Theorem avg_billing_amount_all_missing (float_sum : list Q -> scalar)
    (float_div : scalar -> nat -> scalar) (format_2f : Q -> string)
    (data : DataFrame) :
  Forall (fun r => Billing_Amount r = NaN) data ->
  avg_billing_amount float_sum float_div data = nan /\
  avg_billing_text float_sum float_div format_2f data
  = "Average Biling Amount: nan" /\
  layout float_sum float_div format_2f data
  = Raise (ValueError "cannot convert float NaN to integer").
Proof.
  intros H.
  assert (avg_billing_amount float_sum float_div data = nan) as E.
  { unfold avg_billing_amount, mean. now rewrite (all_missing_count data H). }
  split; [exact E|]. split.
  - unfold avg_billing_text. now rewrite E.
  - now apply all_missing_layout.
Qed.

Lemma avg_billing_amount_all_missing_witness :
  Forall (fun r => Billing_Amount r = NaN) [damaged_row] /\
  avg_billing_amount sample_float_sum sample_float_div [damaged_row] = nan /\
  layout sample_float_sum sample_float_div (fun _ => EmptyString) [damaged_row]
  = Raise (ValueError "cannot convert float NaN to integer").
Proof.
  assert (Forall (fun r => Billing_Amount r = NaN) [damaged_row]) as H
      by (constructor; [reflexivity|constructor]).
  split; [exact H|].
  destruct (avg_billing_amount_all_missing sample_float_sum sample_float_div
              (fun _ => EmptyString) [damaged_row] H) as (E1 & _ & E3).
  split; [exact E1|exact E3].
Defined.

(** ** Loading *)

Lemma to_numeric_coerce parse_float (column : list string) :
  to_numeric parse_float column errors_coerce
  = Ok (map (coerced_float parse_float) column).
Proof.
  unfold to_numeric, coerced_float.
  induction column as [|cell column IH]; simpl; [reflexivity|].
  rewrite IH. destruct (parse_float cell); reflexivity.
Qed.

Lemma to_datetime_mixed parse_datetime mixed_offsets (column : list string)
    (errors : errors_policy) :
  mixed_offsets column = true ->
  to_datetime parse_datetime mixed_offsets column errors
  = Raise (ValueError "Mixed timezones detected. Pass utc=True in to_datetime").
Proof. unfold to_datetime. now intros ->. Qed.

Lemma to_datetime_coerce parse_datetime mixed_offsets (column : list string) :
  mixed_offsets column = false ->
  to_datetime parse_datetime mixed_offsets column errors_coerce
  = Ok (map (coerced_datetime parse_datetime column) column).
Proof.
  unfold to_datetime, coerced_datetime. intros ->.
  generalize (parse_datetime column) as parse. intros parse.
  induction column as [|cell column IH]; simpl; [reflexivity|].
  rewrite IH. destruct (parse cell); reflexivity.
Qed.

Lemma assign_columns_rows (f : string -> float) (g : string -> option Timestamp)
    (csv : list CsvRow) :
  Forall2
    (fun line r =>
       Age r = csv_Age line /\
       Gender r = csv_Gender line /\
       Medical_Condition r = csv_Medical_Condition line /\
       Insurance_Provider r = csv_Insurance_Provider line /\
       Billing_Amount r = f (csv_Billing_Amount line) /\
       Date_of_Admission r = g (csv_Date_of_Admission line) /\
       YearMonth r = dt_to_period_M (Date_of_Admission r))
    csv
    (assign_columns csv (map f (map csv_Billing_Amount csv))
       (map g (map csv_Date_of_Admission csv))).
Proof.
  induction csv as [|line csv IH]; simpl; constructor; [|assumption].
  simpl. repeat split.
Qed.

Lemma load_data_rows parse_float parse_datetime mixed_offsets (csv : list CsvRow) :
  mixed_offsets (map csv_Date_of_Admission csv) = false ->
  load_data parse_float parse_datetime mixed_offsets csv
  = Ok (assign_columns csv
          (map (coerced_float parse_float) (map csv_Billing_Amount csv))
          (map (coerced_datetime parse_datetime (map csv_Date_of_Admission csv))
             (map csv_Date_of_Admission csv))).
Proof.
  intros Hm. unfold load_data.
  rewrite to_numeric_coerce. simpl.
  rewrite (to_datetime_coerce _ _ _ Hm). reflexivity.
Qed.

Lemma load_data_mixed parse_float parse_datetime mixed_offsets (csv : list CsvRow) :
  mixed_offsets (map csv_Date_of_Admission csv) = true ->
  load_data parse_float parse_datetime mixed_offsets csv
  = Raise (ValueError "Mixed timezones detected. Pass utc=True in to_datetime").
Proof.
  intros Hm. unfold load_data.
  rewrite to_numeric_coerce. simpl.
  now rewrite (to_datetime_mixed _ _ _ _ Hm).
Qed.

(** C8.  Coercion raises on one kind of file: when the Date of Admission
    cells carry different UTC offsets, [pd.to_datetime] refuses the column
    although [errors='coerce'] was asked for, and [load_data] raises.  On
    every other file [load_data] returns a table with one row per line: a
    cell that is not a number is loaded as NaN, a cell that is not a date
    (in the format of its column) as NaT, YearMonth is the month of the date
    and missing with it.  In that table a row without a Billing Amount is
    never among the rows of the billing histogram, and the admission counts
    add up to the rows that have a month. *)
Theorem load_data_outcome (parse_float : string -> option float)
    (parse_datetime : list string -> string -> option (option Timestamp))
    (mixed_offsets : list string -> bool) (csv : list CsvRow) :
  let dates := map csv_Date_of_Admission csv in
  (mixed_offsets dates = true ->
   load_data parse_float parse_datetime mixed_offsets csv
   = Raise (ValueError "Mixed timezones detected. Pass utc=True in to_datetime")) /\
  (mixed_offsets dates = false ->
   exists data,
     load_data parse_float parse_datetime mixed_offsets csv = Ok data /\
     Forall2
       (fun line r =>
          (parse_float (csv_Billing_Amount line) = None ->
           Billing_Amount r = NaN) /\
          (parse_datetime dates (csv_Date_of_Admission line) = None ->
           Date_of_Admission r = None) /\
          YearMonth r = dt_to_period_M (Date_of_Admission r) /\
          (Date_of_Admission r = None -> YearMonth r = None))
       csv data /\
     (forall selected_gender slider_value r,
         In r (billing_slider_filter slider_value
                 (billing_gender_filter selected_gender data)) <->
         In r (billing_gender_filter selected_gender data) /\
         exists q, Billing_Amount r = Num q /\ (q <= slider_value)%Q) /\
     (forall selected_condition,
         total_count (admission_counts data selected_condition)
         = length
             (filter
                (fun r =>
                   (negb (truthy selected_condition)
                    || str_eq (Medical_Condition r) selected_condition)
                   && match YearMonth r with
                      | Some _ => true
                      | None => false
                      end)
                data))).
Proof.
  intros dates. split; [apply load_data_mixed|].
  intros Hm. eexists. split; [apply (load_data_rows _ _ _ _ Hm)|].
  split; [|split].
  - eapply Forall2_impl; [|apply assign_columns_rows].
    intros line r (_ & _ & _ & _ & Eb & Ed & Ey).
    unfold coerced_float in Eb. unfold coerced_datetime in Ed. fold dates in Ed.
    repeat split.
    + intros Hn. now rewrite Eb, Hn.
    + intros Hn. now rewrite Ed, Hn.
    + exact Ey.
    + intros Hn. now rewrite Ey, Hn.
  - intros v x r. unfold billing_slider_filter.
    rewrite filter_In, float_le_spec. reflexivity.
  - intros v. unfold admission_counts. rewrite total_count_groupby.
    destruct (truthy v); simpl; [now rewrite filter_conj|reflexivity].
Qed.

Lemma load_data_outcome_witness :
  sample_mixed_offsets (map csv_Date_of_Admission mixed_timezone_csv) = true /\
  load_data sample_parse_float sample_parse_datetime sample_mixed_offsets
    mixed_timezone_csv
  = Raise (ValueError "Mixed timezones detected. Pass utc=True in to_datetime") /\
  load_data sample_parse_float sample_parse_datetime sample_mixed_offsets sample_csv
  = Ok [male_row; female_row; damaged_row].
Proof.
  split; [reflexivity|]. split.
  - exact (proj1 (load_data_outcome sample_parse_float sample_parse_datetime
                    sample_mixed_offsets mixed_timezone_csv) eq_refl).
  - reflexivity.
Defined.

(** ** Starting the application *)

Lemma assign_columns_all_missing parse_float (g : string -> option Timestamp)
    (csv : list CsvRow) :
  Forall (fun line => forall q, parse_float (csv_Billing_Amount line)
                                <> Some (Num q)) csv ->
  Forall (fun r => Billing_Amount r = NaN)
    (assign_columns csv
       (map (coerced_float parse_float) (map csv_Billing_Amount csv))
       (map g (map csv_Date_of_Admission csv))).
Proof.
  induction 1 as [|line csv Hline _ IH]; simpl; constructor; [|assumption].
  simpl. unfold coerced_float.
  destruct (parse_float (csv_Billing_Amount line)) as [[q|]|];
    [exfalso; exact (Hline q eq_refl)|reflexivity|reflexivity].
Qed.

(** X17.  When no Billing Amount cell of the file parses to a number, the
    module does not come up: if the dates are accepted, the table is loaded
    and the average computed, and then building the layout raises
    [ValueError] at the slider marks. *)
Theorem build_app_needs_billing (float_sum : list Q -> scalar)
    (float_div : scalar -> nat -> scalar) (format_2f : Q -> string)
    (parse_float : string -> option float)
    (parse_datetime : list string -> string -> option (option Timestamp))
    (mixed_offsets : list string -> bool) (csv : list CsvRow) :
  Forall (fun line => forall q, parse_float (csv_Billing_Amount line)
                                <> Some (Num q)) csv ->
  (exists e, build_app float_sum float_div format_2f parse_float parse_datetime
               mixed_offsets csv = Raise e) /\
  (mixed_offsets (map csv_Date_of_Admission csv) = false ->
   build_app float_sum float_div format_2f parse_float parse_datetime
     mixed_offsets csv
   = Raise (ValueError "cannot convert float NaN to integer")).
Proof.
  intros Hno.
  assert (mixed_offsets (map csv_Date_of_Admission csv) = false ->
          build_app float_sum float_div format_2f parse_float parse_datetime
            mixed_offsets csv
          = Raise (ValueError "cannot convert float NaN to integer")) as Hfalse.
  { intros Hm. unfold build_app. rewrite (load_data_rows _ _ _ _ Hm). simpl.
    rewrite all_missing_layout; [reflexivity|].
    now apply assign_columns_all_missing. }
  split; [|exact Hfalse].
  destruct (mixed_offsets (map csv_Date_of_Admission csv)) eqn:Hm.
  - eexists. unfold build_app. now rewrite (load_data_mixed _ _ _ _ Hm).
  - eexists. now apply Hfalse.
Qed.

Lemma build_app_needs_billing_witness :
  Forall (fun line => forall q, sample_parse_float (csv_Billing_Amount line)
                                <> Some (Num q))
    [mkCsvRow 51 "Male" "Asthma" "Aetna" "n/a" "2021-03-14"] /\
  build_app sample_float_sum sample_float_div (fun _ => EmptyString)
    sample_parse_float sample_parse_datetime sample_mixed_offsets
    [mkCsvRow 51 "Male" "Asthma" "Aetna" "n/a" "2021-03-14"]
  = Raise (ValueError "cannot convert float NaN to integer").
Proof.
  assert (Forall (fun line => forall q, sample_parse_float (csv_Billing_Amount line)
                                        <> Some (Num q))
            [mkCsvRow 51 "Male" "Asthma" "Aetna" "n/a" "2021-03-14"]) as H.
  { constructor; [intros q; discriminate|constructor]. }
  split; [exact H|].
  exact (proj2 (build_app_needs_billing sample_float_sum sample_float_div
                  (fun _ => EmptyString) sample_parse_float sample_parse_datetime
                  sample_mixed_offsets _ H) eq_refl).
Defined.

(** ** The marks dictionary *)

(** X14.  When the slider marks are built there are between one and five of
    them, their positions are pairwise distinct, and each mark is labelled
    with a dollar sign followed by its own position with thousands
    separators. *)
Theorem slider_marks_wellformed (data : DataFrame) (m : list (Z * string)) :
  slider_marks data = Ok m ->
  NoDup (map fst m) /\
  (1 <= length m <= 5)%nat /\
  Forall (fun kv => snd kv = "$" ++ format_commas (fst kv)) m.
Proof.
  intros E. unfold slider_marks in E.
  destruct (marks_from_spec _ _ _ E (NoDup_nil _) (Forall_nil _))
    as (H1 & H2 & H3 & H4).
  split; [exact H1|]. split; [|exact H2].
  split; [|rewrite length_map in H3; simpl in H3; lia].
  destruct m as [|kv m]; [|simpl; lia].
  exfalso. simpl in E.
  destruct (py_int (quantile (map Billing_Amount data) 0)) as [k|e] eqn:Ek;
    [|discriminate].
  assert (In k (map fst (@nil (Z * string)))) as H; [|contradiction].
  apply H4. right. eexists. split; [left; reflexivity|exact Ek].
Qed.

Lemma slider_marks_wellformed_witness :
  slider_marks sample_data
  = Ok [(100, "$100"); (125, "$125"); (150, "$150"); (175, "$175"); (200, "$200")] /\
  NoDup [100; 125; 150; 175; 200].
Proof.
  split; [reflexivity|].
  exact (proj1 (slider_marks_wellformed sample_data _ eq_refl)).
Defined.
